(** * Food delivery management: the order workflow and its data-access layer

    A shallow embedding of [backend.py], [backend_logic.py] and
    [claude_logic.py]: the query executor, the entity managers that write
    ingredient stock and customers, and the order workflow (orders, bills,
    deliveries, status).

    The SQLite database is a record of tables, each a list of rows in rowid
    order.  Every operation takes the store and returns its Python result
    together with the store as it is after the connection is closed.  The
    formatted [datetime.now()] string is passed in as [now].  Numeric columns
    ([float] in the sources) are rationals: the numbers among the floats.
    A NaN, for which every comparison of Python is false, is not among them;
    a statement about a guard on a number says which numbers it is about. *)

From Stdlib Require Import List ZArith QArith String Bool Lia Sorted.
Import ListNotations.

Local Open Scope string_scope.
Local Open Scope Z_scope.
Local Open Scope list_scope.

(** ** Rows and tables *)

Record Customer := mkCustomer
  { cus_id : Z; cus_name : string; cus_phone : string }.

Record Employee := mkEmployee
  { emp_id : Z; emp_name : string }.

Record Shipper := mkShipper
  { shipper_id : Z; shipper_info : string }.

Record Ingredient := mkIngredient
  { ingre_id : Z; ingre_name : string; stock : Q;
    unit : string; expiry : string; suppliers : string }.

Record Order := mkOrder
  { order_id : Z; dish_req : string; total_price : Q;
    order_time : string; status : string; order_cus_id : Z }.

Record Bill := mkBill
  { bill_id : Z; bill_order_id : Z; bill_emp_id : Z; bill_shipper_id : Z;
    total_amount : Q; bill_time : string }.

Record Delivery := mkDelivery
  { delivery_id : Z; delivery_order_id : Z; delivery_shipper_id : Z;
    delivery_time : string; delivery_addr : string; distance : Q; fee : Q }.

Record Store := mkStore
  { Customers : list Customer;
    Employees : list Employee;
    Shippers : list Shipper;
    Ingredients : list Ingredient;
    Orders : list Order;
    Bills : list Bill;
    Deliveries : list Delivery }.

Definition empty_store : Store := mkStore [] [] [] [] [] [] [].

Definition with_Customers (s : Store) (l : list Customer) : Store :=
  mkStore l (Employees s) (Shippers s) (Ingredients s) (Orders s) (Bills s)
    (Deliveries s).

Definition with_Ingredients (s : Store) (l : list Ingredient) : Store :=
  mkStore (Customers s) (Employees s) (Shippers s) l (Orders s) (Bills s)
    (Deliveries s).

Definition with_Orders (s : Store) (l : list Order) : Store :=
  mkStore (Customers s) (Employees s) (Shippers s) (Ingredients s) l (Bills s)
    (Deliveries s).

Definition with_Bills (s : Store) (l : list Bill) : Store :=
  mkStore (Customers s) (Employees s) (Shippers s) (Ingredients s) (Orders s)
    l (Deliveries s).

Definition with_Deliveries (s : Store) (l : list Delivery) : Store :=
  mkStore (Customers s) (Employees s) (Shippers s) (Ingredients s) (Orders s)
    (Bills s) l.

(** ** The statements the managers send, with their parameters bound *)

Inductive Statement :=
| InsertCustomer (name phone : string)
| SelectCustomers
| SelectCustomerByPhone (phone : string)
| InsertIngredient (name : string) (stock : Q) (unit expiry suppliers : string)
| SelectIngredientById (ingre_id : Z)
| UpdateIngredientStock (new_stock : Q) (ingre_id : Z)
| UpdateIngredient (name : string) (stock : Q) (unit expiry suppliers : string)
    (ingre_id : Z)
| InsertOrder (dish_req : string) (total_price : Q) (order_time status : string)
    (cus_id : Z)
| InsertBill (order_id emp_id shipper_id : Z) (total_amount : Q)
    (bill_time : string)
| InsertDelivery (order_id shipper_id : Z) (delivery_time delivery_addr : string)
    (distance fee : Q)
| UpdateOrderStatus (status : string) (order_id : Z).

(** A column declared INTEGER PRIMARY KEY receives, when the INSERT names no
    id, one more than the largest id in the table, and 1 in an empty table.
    Ids are unbounded integers here; SQLite departs from this rule only at
    the largest 64-bit id. *)
Definition next_rowid (ids : list Z) : Z :=
  match ids with
  | [] => 1
  | i :: rest => fold_left Z.max rest i + 1
  end.

Definition set_status (st : string) (o : Order) : Order :=
  mkOrder (order_id o) (dish_req o) (total_price o) (order_time o) st
    (order_cus_id o).

Definition set_stock (q : Q) (i : Ingredient) : Ingredient :=
  mkIngredient (ingre_id i) (ingre_name i) q (unit i) (expiry i) (suppliers i).

(** [cursor.lastrowid] after the statement: the id given to the inserted row,
    [None] when the statement is not an INSERT. *)
Definition lastrowid (q : Statement) (s : Store) : option Z :=
  match q with
  | InsertCustomer _ _ => Some (next_rowid (map cus_id (Customers s)))
  | InsertIngredient _ _ _ _ _ => Some (next_rowid (map ingre_id (Ingredients s)))
  | InsertOrder _ _ _ _ _ => Some (next_rowid (map order_id (Orders s)))
  | InsertBill _ _ _ _ _ => Some (next_rowid (map bill_id (Bills s)))
  | InsertDelivery _ _ _ _ _ _ => Some (next_rowid (map delivery_id (Deliveries s)))
  | _ => None
  end.

(** The committed effect of a statement that the store executes. *)
Definition run (q : Statement) (s : Store) : Store :=
  match q with
  | InsertCustomer name phone =>
      with_Customers s
        (Customers s ++ [mkCustomer (next_rowid (map cus_id (Customers s))) name phone])
  | InsertIngredient name st un ex su =>
      with_Ingredients s
        (Ingredients s ++
           [mkIngredient (next_rowid (map ingre_id (Ingredients s))) name st un ex su])
  | UpdateIngredientStock new_stock id =>
      with_Ingredients s
        (map (fun i => if ingre_id i =? id then set_stock new_stock i else i)
           (Ingredients s))
  | UpdateIngredient name st un ex su id =>
      with_Ingredients s
        (map (fun i => if ingre_id i =? id
                       then mkIngredient (ingre_id i) name st un ex su else i)
           (Ingredients s))
  | InsertOrder dr tp ot st cid =>
      with_Orders s
        (Orders s ++ [mkOrder (next_rowid (map order_id (Orders s))) dr tp ot st cid])
  | InsertBill oid eid sid ta bt =>
      with_Bills s
        (Bills s ++ [mkBill (next_rowid (map bill_id (Bills s))) oid eid sid ta bt])
  | InsertDelivery oid sid dt da di fe =>
      with_Deliveries s
        (Deliveries s ++
           [mkDelivery (next_rowid (map delivery_id (Deliveries s))) oid sid dt da di fe])
  | UpdateOrderStatus st id =>
      with_Orders s
        (map (fun o => if order_id o =? id then set_status st o else o) (Orders s))
  | SelectCustomers | SelectCustomerByPhone _ | SelectIngredientById _ => s
  end.

Inductive Row :=
| CustomerRow (c : Customer)
| IngredientRow (i : Ingredient).

(** The rows a statement yields to [fetchone] and [fetchall]. *)
Definition rows (q : Statement) (s : Store) : list Row :=
  match q with
  | SelectCustomers => map CustomerRow (Customers s)
  | SelectCustomerByPhone phone =>
      map CustomerRow (filter (fun c => String.eqb (cus_phone c) phone) (Customers s))
  | SelectIngredientById id =>
      map IngredientRow (filter (fun i => ingre_id i =? id) (Ingredients s))
  | _ => []
  end.

(** What the database file does with a statement is not in the sources (the
    schema, its constraints, the state of the file).  [raises s q] says
    whether [cursor.execute] of [q] on store [s] raises [sqlite3.Error], and
    [commit_raises s q] whether the [commit] that follows it does. *)
Class Engine :=
  { raises : Store -> Statement -> bool;
    commit_raises : Store -> Statement -> bool }.

(** The write [q] does not reach the file: executing it or committing it
    raises. *)
Definition rejected {E : Engine} (s : Store) (q : Statement) : bool :=
  raises s q || commit_raises s q.

(** [a < b] on the numeric columns, for numbers; on rationals it is the
    negation of [b <= a], which it is not for a float NaN. *)
Definition Qlt_bool (a b : Q) : bool := negb (Qle_bool b a).

(** ** Python values the executor returns *)

Inductive PyValue :=
| PyNone
| PyTrue
| PyRow (r : Row)
| PyRows (rs : list Row).

(** [bool(v)]: [None] and the empty list are false, a row is true. *)
Definition truthy (v : PyValue) : bool :=
  match v with
  | PyNone => false
  | PyTrue => true
  | PyRow _ => true
  | PyRows [] => false
  | PyRows (_ :: _) => true
  end.

(** ** [OrderStatus] *)

Inductive OrderStatus := PENDING | PREPARING | READY | DELIVERED | CANCELLED.

Definition value (st : OrderStatus) : string :=
  match st with
  | PENDING => "Pending"
  | PREPARING => "Preparing"
  | READY => "Ready"
  | DELIVERED => "Delivered"
  | CANCELLED => "Cancelled"
  end.

(** [OrderStatus(status)]: lookup by value, [None] where Python raises
    [ValueError]. *)
Definition OrderStatus_of (status : string) : option OrderStatus :=
  if String.eqb status "Pending" then Some PENDING
  else if String.eqb status "Preparing" then Some PREPARING
  else if String.eqb status "Ready" then Some READY
  else if String.eqb status "Delivered" then Some DELIVERED
  else if String.eqb status "Cancelled" then Some CANCELLED
  else None.

(** ** [backend.py] *)

Module Backend.
Section WithEngine.
Context {E : Engine}.

(** [exe_query(query, param, commit, fetch_one)]. *)
Definition exe_query (s : Store) (query : Statement) (commit fetch_one : bool)
  : PyValue * Store :=
  if raises s query then (PyNone, s)
  else if commit then
    (if commit_raises s query then (PyNone, s) else (PyTrue, run query s))
  else if fetch_one then
    (match rows query s with [] => PyNone | r :: _ => PyRow r end, s)
  else (PyRows (rows query s), s).
End WithEngine.

Module Ingredient_manager.
Section WithEngine.
Context {E : Engine}.

Definition add (s : Store) (name : string) (stock : Q)
  (unit expiry suppliers : string) : PyValue * Store :=
  exe_query s (InsertIngredient name stock unit expiry suppliers) true false.

Definition update_stock (s : Store) (ingre_id : Z) (new_stock : Q)
  : PyValue * Store :=
  exe_query s (UpdateIngredientStock new_stock ingre_id) true false.
End WithEngine.
End Ingredient_manager.
End Backend.

(** ** [backend_logic.py] *)

Module BackendLogic.
Section WithEngine.
Context {E : Engine}.

(** [execute_query(query, params, fetch_one, commit)]: the result is
    [None] when the statement raises; a write is then rolled back. *)
Definition execute_query (s : Store) (query : Statement) (fetch_one commit : bool)
  : PyValue * Store :=
  if raises s query then (PyNone, s)
  else if commit then
    (if commit_raises s query then (PyNone, s) else (PyTrue, run query s))
  else if fetch_one then
    (match rows query s with [] => PyNone | r :: _ => PyRow r end, s)
  else (PyRows (rows query s), s).
End WithEngine.

Module CustomerManager.
Section WithEngine.
Context {E : Engine}.

Definition add (s : Store) (name phone : string) : PyValue * Store :=
  execute_query s (InsertCustomer name phone) false true.

Definition get_by_phone (s : Store) (phone : string) : PyValue * Store :=
  execute_query s (SelectCustomerByPhone phone) true false.
End WithEngine.
End CustomerManager.

Module IngredientManager.
Section WithEngine.
Context {E : Engine}.

Definition add (s : Store) (name : string) (stock : Q)
  (unit expiry suppliers : string) : PyValue * Store :=
  execute_query s (InsertIngredient name stock unit expiry suppliers) false true.

Definition update_stock (s : Store) (ingre_id : Z) (new_stock : Q)
  : PyValue * Store :=
  execute_query s (UpdateIngredientStock new_stock ingre_id) false true.

(** Prints a line and returns [True]; no statement is sent. *)
Definition deduct_stock_for_order (s : Store) (dish_req_string : string)
  : bool * Store :=
  (true, s).
End WithEngine.
End IngredientManager.

Module OrderManager.
Section WithEngine.
Context {E : Engine}.

(** The connection is handled by hand here.  When [execute] raises,
    [order_id] is still [None]; when [commit] raises, [order_id] already holds
    [cur.lastrowid], the insert is rolled back and that id is returned. *)
Definition create_order (s : Store) (now : string) (dish_req_string : string)
  (total_price : Q) (cus_id : Z) : option Z * Store :=
  let status := "Pending" in
  let q := InsertOrder dish_req_string total_price now status cus_id in
  if raises s q then (None, s)
  else
    let order_id := lastrowid q s in
    if commit_raises s q then (order_id, s)
    else (order_id, run q s).

Definition create_bill (s : Store) (now : string)
  (order_id emp_id shipper_id : Z) (total_amount : Q) : PyValue * Store :=
  execute_query s (InsertBill order_id emp_id shipper_id total_amount now)
    false true.

Definition add_delivery (s : Store) (now : string) (order_id shipper_id : Z)
  (delivery_addr : string) (distance fee : Q) : PyValue * Store :=
  execute_query s
    (InsertDelivery order_id shipper_id now delivery_addr distance fee)
    false true.

Definition update_status (s : Store) (order_id : Z) (status : string)
  : PyValue * Store :=
  execute_query s (UpdateOrderStatus status order_id) false true.
End WithEngine.
End OrderManager.
End BackendLogic.

(** ** [claude_logic.py] *)

Module ClaudeLogic.

Module DatabaseManager.
Section WithEngine.
Context {E : Engine}.

(** [execute_query]: every exception is caught and turned into [None];
    [get_connection] has rolled back and closed by then. *)
Definition execute_query (s : Store) (query : Statement) (fetch_one commit : bool)
  : PyValue * Store :=
  if raises s query then (PyNone, s)
  else if commit then
    (if commit_raises s query then (PyNone, s) else (PyTrue, run query s))
  else if fetch_one then
    (match rows query s with [] => PyNone | r :: _ => PyRow r end, s)
  else (PyRows (rows query s), s).

Definition execute_with_lastrowid (s : Store) (query : Statement)
  : option Z * Store :=
  if raises s query then (None, s)
  else
    let last_id := lastrowid query s in
    if commit_raises s query then (None, s)
    else (last_id, run query s).
End WithEngine.
End DatabaseManager.

Module CustomerManager.
Section WithEngine.
Context {E : Engine}.

Definition get_by_phone (s : Store) (phone : string) : PyValue * Store :=
  DatabaseManager.execute_query s (SelectCustomerByPhone phone) true false.

Definition add (s : Store) (name phone : string) : bool * Store :=
  if String.eqb name "" || String.eqb phone "" then (false, s)
  else
    let (found, s1) := get_by_phone s phone in
    if truthy found then (false, s1)
    else
      let (result, s2) :=
        DatabaseManager.execute_query s1 (InsertCustomer name phone) false true in
      (truthy result, s2).
End WithEngine.
End CustomerManager.

Module IngredientManager.
Section WithEngine.
Context {E : Engine}.

Definition add (s : Store) (name : string) (stock : Q)
  (unit expiry suppliers : string) : bool * Store :=
  if String.eqb name "" || Qlt_bool stock 0 then (false, s)
  else
    let (result, s1) :=
      DatabaseManager.execute_query s
        (InsertIngredient name stock unit expiry suppliers) false true in
    (truthy result, s1).

Definition update_stock (s : Store) (ingre_id : Z) (new_stock : Q)
  : bool * Store :=
  if Qlt_bool new_stock 0 then (false, s)
  else
    let (result, s1) :=
      DatabaseManager.execute_query s
        (UpdateIngredientStock new_stock ingre_id) false true in
    (truthy result, s1).

Definition update (s : Store) (ingre_id : Z) (name : string) (stock : Q)
  (unit expiry suppliers : string) : bool * Store :=
  let (result, s1) :=
    DatabaseManager.execute_query s
      (UpdateIngredient name stock unit expiry suppliers ingre_id) false true in
  (truthy result, s1).
End WithEngine.
End IngredientManager.

Module OrderManager.
Section WithEngine.
Context {E : Engine}.

Definition create_order (s : Store) (now : string) (dish_req_string : string)
  (total_price : Q) (cus_id : Z) : option Z * Store :=
  if String.eqb dish_req_string "" || Qle_bool total_price 0 then (None, s)
  else
    let status := value PENDING in
    DatabaseManager.execute_with_lastrowid s
      (InsertOrder dish_req_string total_price now status cus_id).

Definition create_bill (s : Store) (now : string)
  (order_id emp_id shipper_id : Z) (total_amount : Q) : bool * Store :=
  let (result, s1) :=
    DatabaseManager.execute_query s
      (InsertBill order_id emp_id shipper_id total_amount now) false true in
  (truthy result, s1).

Definition add_delivery (s : Store) (now : string) (order_id shipper_id : Z)
  (delivery_addr : string) (distance fee : Q) : bool * Store :=
  let (result, s1) :=
    DatabaseManager.execute_query s
      (InsertDelivery order_id shipper_id now delivery_addr distance fee)
      false true in
  (truthy result, s1).

Definition update_status (s : Store) (order_id : Z) (status : string)
  : bool * Store :=
  match OrderStatus_of status with
  | None => (false, s)
  | Some _ =>
      let (result, s1) :=
        DatabaseManager.execute_query s (UpdateOrderStatus status order_id)
          false true in
      (truthy result, s1)
  end.
End WithEngine.
End OrderManager.
End ClaudeLogic.

(** ** Behaviours of the store *)

(** A connection on which no statement raises: no constraint of the schema is
    violated, and foreign keys are not enforced (SQLite enforces them only on
    a connection that switched them on, which neither [connect] nor
    [get_connection] does). *)
Definition permissive : Engine :=
  {| raises := fun _ _ => false; commit_raises := fun _ _ => false |}.

Definition has_customer (s : Store) (id : Z) : bool :=
  existsb (fun c => cus_id c =? id) (Customers s).
Definition has_employee (s : Store) (id : Z) : bool :=
  existsb (fun e => emp_id e =? id) (Employees s).
Definition has_shipper (s : Store) (id : Z) : bool :=
  existsb (fun x => shipper_id x =? id) (Shippers s).
Definition has_order (s : Store) (id : Z) : bool :=
  existsb (fun o => order_id o =? id) (Orders s).

(** A store that enforces the references of Orders, Bills and Deliveries. *)
Definition referential : Engine :=
  {| raises := fun s q =>
       match q with
       | InsertOrder _ _ _ _ cid => negb (has_customer s cid)
       | InsertBill oid eid sid _ _ =>
           negb (has_order s oid && has_employee s eid && has_shipper s sid)
       | InsertDelivery oid sid _ _ _ _ =>
           negb (has_order s oid && has_shipper s sid)
       | _ => false
       end;
     commit_raises := fun _ _ => false |}.

(** A store that cannot answer the phone lookup (a locked or damaged file). *)
Definition lookup_fails : Engine :=
  {| raises := fun _ q =>
       match q with SelectCustomerByPhone _ => true | _ => false end;
     commit_raises := fun _ _ => false |}.

(** A database file that cannot be written: every write raises. *)
Definition read_only : Engine :=
  {| raises := fun _ q =>
       match q with
       | SelectCustomers | SelectCustomerByPhone _ | SelectIngredientById _ =>
           false
       | _ => true
       end;
     commit_raises := fun _ _ => false |}.

(** A file on which statements execute and no commit goes through (a full
    disk, a file held by another writer). *)
Definition commit_fails : Engine :=
  {| raises := fun _ _ => false; commit_raises := fun _ _ => true |}.

Definition enforces_references (E : Engine) : Prop :=
  forall s oid eid sid ta bt,
    has_order s oid && has_employee s eid && has_shipper s sid = false ->
    raises s (InsertBill oid eid sid ta bt) = true.

(** ** The two variants of the workflow *)

Inductive variant := backend_logic | claude_logic.

Definition create_order_of {E : Engine} (v : variant)
  : Store -> string -> string -> Q -> Z -> option Z * Store :=
  match v with
  | backend_logic => BackendLogic.OrderManager.create_order
  | claude_logic => ClaudeLogic.OrderManager.create_order
  end.

Record order_call := mkCall
  { call_now : string; call_dish_req : string; call_total_price : Q;
    call_cus_id : Z }.

(** A sequence of [create_order] calls, each on the store the previous one
    left: for every call, what it returned and the store after it. *)
Fixpoint create_orders {E : Engine} (v : variant) (s : Store)
  (calls : list order_call) : list (option Z * Store) :=
  match calls with
  | [] => []
  | c :: rest =>
      let out :=
        create_order_of v s (call_now c) (call_dish_req c)
          (call_total_price c) (call_cus_id c) in
      out :: create_orders v (snd out) rest
  end.

(** A call succeeded: it returned an id and the store holds an Order row
    under that id. *)
Definition succeeded (out : option Z * Store) : bool :=
  match fst out with
  | Some id => has_order (snd out) id
  | None => false
  end.

Definition returned_ids (outs : list (option Z * Store)) : list Z :=
  flat_map (fun out => match fst out with Some id => [id] | None => [] end) outs.

(** The store after the last call. *)
Definition final_store (s : Store) (outs : list (option Z * Store)) : Store :=
  last (map snd outs) s.

(** ** Frame conditions *)

(** Every row of the three workflow tables is still there, unchanged and in
    place; rows may have been added after them. *)
Definition rows_kept (s s' : Store) : Prop :=
  (exists l, Orders s' = Orders s ++ l) /\
  (exists l, Bills s' = Bills s ++ l) /\
  (exists l, Deliveries s' = Deliveries s ++ l).

(** Row [o'] is row [o] except possibly for its status, and is [o] itself
    unless its id is [id]. *)
Definition same_but_status (id : Z) (o o' : Order) : Prop :=
  order_id o' = order_id o /\ dish_req o' = dish_req o /\
  total_price o' = total_price o /\ order_time o' = order_time o /\
  order_cus_id o' = order_cus_id o /\
  (order_id o <> id -> o' = o).

Definition only_status_of (id : Z) (s s' : Store) : Prop :=
  Forall2 (same_but_status id) (Orders s) (Orders s') /\
  Bills s' = Bills s /\ Deliveries s' = Deliveries s /\
  Customers s' = Customers s /\ Employees s' = Employees s /\
  Shippers s' = Shippers s /\ Ingredients s' = Ingredients s.

Definition stock_nonneg (s : Store) : Prop :=
  Forall (fun i => (0 <= stock i)%Q) (Ingredients s).

Definition phones_unique (s : Store) : Prop :=
  NoDup (map cus_phone (Customers s)).

(** ** Stores and requests of the examples *)

Definition two_calls : list order_call :=
  [mkCall "2024-01-01 10:00:00" "Bread" (4 # 1) 1;
   mkCall "2024-01-01 10:05:00" "Bread, Soup" (9 # 1) 1].

Definition one_customer : Store :=
  with_Customers empty_store [mkCustomer 1 "An" "0901"].

Definition one_pending_order : Store :=
  with_Orders one_customer
    [mkOrder 1 "Bread" (4 # 1) "2024-01-01 10:00:00" "Pending" 1].

Definition one_delivered_order : Store :=
  with_Orders one_customer
    [mkOrder 1 "Bread" (4 # 1) "2024-01-01 10:00:00" "Delivered" 1].

Definition bill_time0 : string := "2024-01-01 11:00:00".

(** "Insufficient" as the specification uses it: some ingredient's stock is
    below the quantity the dish request requires of it, for a table
    [required] of quantities per request and ingredient id.  The sources
    have no such table. *)
Definition insufficient (required : string -> Z -> Q) (s : Store)
  (dish_req_string : string) : bool :=
  existsb (fun i => Qlt_bool (stock i) (required dish_req_string (ingre_id i)))
    (Ingredients s).

(** What the specification asks of [deduct_stock_for_order]. *)
Definition deduct_fails_when_insufficient : Prop :=
  forall required s dish_req_string,
    insufficient required s dish_req_string = true ->
    fst (BackendLogic.IngredientManager.deduct_stock_for_order s dish_req_string)
    = false.

Definition flour (q : Q) : Store :=
  with_Ingredients one_customer
    [mkIngredient 1 "Flour" q "kg" "2025-01-01" "Mill"].

(** Bread takes 3 kg of flour (ingredient 1). *)
Definition bread_recipe (dish_req_string : string) (ingre : Z) : Q :=
  if String.eqb dish_req_string "Bread" && (ingre =? 1) then 3 # 1 else 0.

(** A run of [deduct_stock_for_order] calls, one per request. *)
Definition deduct_all (s : Store) (requests : list string) : Store :=
  fold_left
    (fun st r => snd (BackendLogic.IngredientManager.deduct_stock_for_order st r))
    requests s.

(** One customer, one shipper, flour in stock, and no employee yet. *)
Definition shop : Store :=
  mkStore [mkCustomer 1 "An" "0901"] [] [mkShipper 1 "Bike"]
    [mkIngredient 1 "Flour" (5 # 1) "kg" "2025-01-01" "Mill"] [] [] [].

Definition order_time0 : string := "2024-01-01 10:00:00".

(** ** Invariants of the tables *)

(** No table holds two rows under one id. *)
Definition ids_unique (s : Store) : Prop :=
  NoDup (map cus_id (Customers s)) /\
  NoDup (map emp_id (Employees s)) /\
  NoDup (map shipper_id (Shippers s)) /\
  NoDup (map ingre_id (Ingredients s)) /\
  NoDup (map order_id (Orders s)) /\
  NoDup (map bill_id (Bills s)) /\
  NoDup (map delivery_id (Deliveries s)).

(** Every stored order carries one of the five values of [OrderStatus]. *)
Definition statuses_valid (s : Store) : Prop :=
  Forall (fun o => OrderStatus_of (status o) <> None) (Orders s).

(** ** [claude_logic.py]: lookups by id over the statements above *)

Module ClaudeLookups.
Module IngredientManager.
Section WithEngine.
Context {E : Engine}.

Definition get_by_id (s : Store) (ingre_id : Z) : PyValue * Store :=
  ClaudeLogic.DatabaseManager.execute_query s (SelectIngredientById ingre_id)
    true false.
End WithEngine.
End IngredientManager.
End ClaudeLookups.

Definition has_ingredient (s : Store) (id : Z) : bool :=
  existsb (fun i => ingre_id i =? id) (Ingredients s).

(** ** [claude_logic.py]: the other methods of the managers *)

(** Their statements, with the parameters bound. *)
Inductive Query :=
| SelectCustomerById (cus_id : Z)
| UpdateCustomer (name phone : string) (cus_id : Z)
| DeleteCustomer (cus_id : Z)
| InsertEmployee (name : string)
| SelectEmployeeById (emp_id : Z)
| DeleteEmployee (emp_id : Z)
| SelectShipperById (shipper_id : Z)
| DeleteIngredient (ingre_id : Z)
| SelectOrderById (order_id : Z)
| SelectDeliveryInfo (order_id : Z).

Definition with_Employees (s : Store) (l : list Employee) : Store :=
  mkStore (Customers s) l (Shippers s) (Ingredients s) (Orders s) (Bills s)
    (Deliveries s).

(** The committed effect of a statement that the store executes.  A DELETE
    removes rows of its own table only: the connections never switch
    foreign keys on, so nothing cascades. *)
Definition perform (q : Query) (s : Store) : Store :=
  match q with
  | UpdateCustomer name phone id =>
      with_Customers s
        (map (fun c => if cus_id c =? id then mkCustomer (cus_id c) name phone
                       else c)
           (Customers s))
  | DeleteCustomer id =>
      with_Customers s (filter (fun c => negb (cus_id c =? id)) (Customers s))
  | InsertEmployee name =>
      with_Employees s
        (Employees s ++ [mkEmployee (next_rowid (map emp_id (Employees s))) name])
  | DeleteEmployee id =>
      with_Employees s (filter (fun e => negb (emp_id e =? id)) (Employees s))
  | DeleteIngredient id =>
      with_Ingredients s
        (filter (fun i => negb (ingre_id i =? id)) (Ingredients s))
  | SelectCustomerById _ | SelectEmployeeById _ | SelectShipperById _
  | SelectOrderById _ | SelectDeliveryInfo _ => s
  end.

(** The columns [get_delivery_info] selects. *)
Record DeliveryInfo := mkDeliveryInfo
  { info_delivery_addr : string; info_distance : Q; info_fee : Q;
    info_delivery_time : string; info_shipper_info : string }.

Inductive Answer :=
| ACustomer (c : Customer)
| AnEmployee (e : Employee)
| AShipper (x : Shipper)
| AnOrder (o : Order) (c : Customer)
| ADelivery (d : DeliveryInfo).

(** The rows a statement yields.  The two joins pair an order with the
    customers that carry its [cus_id], and a delivery with the shippers that
    carry its [shipper_id]. *)
Definition answers (q : Query) (s : Store) : list Answer :=
  match q with
  | SelectCustomerById id =>
      map ACustomer (filter (fun c => cus_id c =? id) (Customers s))
  | SelectEmployeeById id =>
      map AnEmployee (filter (fun e => emp_id e =? id) (Employees s))
  | SelectShipperById id =>
      map AShipper (filter (fun x => shipper_id x =? id) (Shippers s))
  | SelectOrderById id =>
      flat_map
        (fun o =>
           map (AnOrder o)
             (filter (fun c => cus_id c =? order_cus_id o) (Customers s)))
        (filter (fun o => order_id o =? id) (Orders s))
  | SelectDeliveryInfo id =>
      flat_map
        (fun d =>
           map (fun x =>
                  ADelivery
                    (mkDeliveryInfo (delivery_addr d) (distance d) (fee d)
                       (delivery_time d) (shipper_info x)))
             (filter (fun x => shipper_id x =? delivery_shipper_id d)
                (Shippers s)))
        (filter (fun d => delivery_order_id d =? id) (Deliveries s))
  | _ => []
  end.

(** Whether [execute] and [commit] of these statements raise. *)
Class QueryEngine :=
  { query_raises : Store -> Query -> bool;
    query_commit_raises : Store -> Query -> bool }.

Definition refused {QE : QueryEngine} (s : Store) (q : Query) : bool :=
  query_raises s q || query_commit_raises s q.

Inductive PyAnswer :=
| NoneAnswer
| TrueAnswer
| RowAnswer (r : Answer)
| RowsAnswer (rs : list Answer).

Definition answer_truthy (v : PyAnswer) : bool :=
  match v with
  | NoneAnswer => false
  | TrueAnswer => true
  | RowAnswer _ => true
  | RowsAnswer [] => false
  | RowsAnswer (_ :: _) => true
  end.

Module ClaudeManagers.

Module DatabaseManager.
Section WithEngine.
Context {QE : QueryEngine}.

(** [DatabaseManager.execute_query] at these statements. *)
Definition execute_query (s : Store) (query : Query) (fetch_one commit : bool)
  : PyAnswer * Store :=
  if query_raises s query then (NoneAnswer, s)
  else if commit then
    (if query_commit_raises s query then (NoneAnswer, s)
     else (TrueAnswer, perform query s))
  else if fetch_one then
    (match answers query s with [] => NoneAnswer | r :: _ => RowAnswer r end, s)
  else (RowsAnswer (answers query s), s).
End WithEngine.
End DatabaseManager.

Module CustomerManager.
Section WithEngine.
Context {QE : QueryEngine}.

Definition get_by_id (s : Store) (cus_id : Z) : PyAnswer * Store :=
  DatabaseManager.execute_query s (SelectCustomerById cus_id) true false.

Definition update (s : Store) (cus_id : Z) (name phone : string)
  : bool * Store :=
  let (result, s1) :=
    DatabaseManager.execute_query s (UpdateCustomer name phone cus_id)
      false true in
  (answer_truthy result, s1).

Definition delete (s : Store) (cus_id : Z) : bool * Store :=
  let (result, s1) :=
    DatabaseManager.execute_query s (DeleteCustomer cus_id) false true in
  (answer_truthy result, s1).
End WithEngine.
End CustomerManager.

Module EmployeeManager.
Section WithEngine.
Context {QE : QueryEngine}.

Definition add (s : Store) (name : string) : bool * Store :=
  if String.eqb name "" then (false, s)
  else
    let (result, s1) :=
      DatabaseManager.execute_query s (InsertEmployee name) false true in
    (answer_truthy result, s1).

Definition get_by_id (s : Store) (emp_id : Z) : PyAnswer * Store :=
  DatabaseManager.execute_query s (SelectEmployeeById emp_id) true false.

Definition delete (s : Store) (emp_id : Z) : bool * Store :=
  let (result, s1) :=
    DatabaseManager.execute_query s (DeleteEmployee emp_id) false true in
  (answer_truthy result, s1).
End WithEngine.
End EmployeeManager.

Module ShipperManager.
Section WithEngine.
Context {QE : QueryEngine}.

Definition get_by_id (s : Store) (shipper_id : Z) : PyAnswer * Store :=
  DatabaseManager.execute_query s (SelectShipperById shipper_id) true false.
End WithEngine.
End ShipperManager.

Module IngredientManager.
Section WithEngine.
Context {QE : QueryEngine}.

Definition delete (s : Store) (ingre_id : Z) : bool * Store :=
  let (result, s1) :=
    DatabaseManager.execute_query s (DeleteIngredient ingre_id) false true in
  (answer_truthy result, s1).
End WithEngine.
End IngredientManager.

Module OrderManager.
Section WithEngine.
Context {QE : QueryEngine}.

Definition get_order_by_id (s : Store) (order_id : Z) : PyAnswer * Store :=
  DatabaseManager.execute_query s (SelectOrderById order_id) true false.

Definition get_delivery_info (s : Store) (order_id : Z) : PyAnswer * Store :=
  DatabaseManager.execute_query s (SelectDeliveryInfo order_id) true false.
End WithEngine.
End OrderManager.
End ClaudeManagers.

(** A store on which none of these statements raises. *)
Definition answering : QueryEngine :=
  {| query_raises := fun _ _ => false; query_commit_raises := fun _ _ => false |}.

Definition two_customers : Store :=
  with_Customers empty_store
    [mkCustomer 1 "An" "0901"; mkCustomer 2 "Binh" "0902"].

(** A file on which the commit of an order stamped [t] does not go through
    and every other statement does. *)
Definition commit_fails_at (t : string) : Engine :=
  {| raises := fun _ _ => false;
     commit_raises := fun _ q =>
       match q with
       | InsertOrder _ _ order_time _ _ => String.eqb order_time t
       | _ => false
       end |}.

(** The same order placed twice, five minutes apart. *)
Definition retry_calls : list order_call :=
  [mkCall "2024-01-01 10:00:00" "Bread" (4 # 1) 1;
   mkCall "2024-01-01 10:05:00" "Bread" (4 # 1) 1].

(** * Properties *)

(** ** Row ids *)

Lemma fold_max_ge_init (l : list Z) (a : Z) : a <= fold_left Z.max l a.
Proof.
  revert a; induction l as [|x l IH]; intro a; simpl; [lia|].
  specialize (IH (Z.max a x)); lia.
Qed.

Lemma fold_max_ge_elem (l : list Z) (a x : Z) :
  In x l -> x <= fold_left Z.max l a.
Proof.
  revert a; induction l as [|y l IH]; intros a Hin; simpl in *; [tauto|].
  destruct Hin as [->|Hin].
  - pose proof (fold_max_ge_init l (Z.max a x)); lia.
  - now apply IH.
Qed.

Lemma next_rowid_fresh (ids : list Z) (i : Z) : In i ids -> i < next_rowid ids.
Proof.
  destruct ids as [|a rest]; simpl; [tauto|].
  intros [->|Hin].
  - pose proof (fold_max_ge_init rest i); lia.
  - pose proof (fold_max_ge_elem rest a i Hin); lia.
Qed.

(** ** One [create_order] call *)

Lemma has_order_spec (s : Store) (id : Z) :
  has_order s id = true <-> exists o, In o (Orders s) /\ order_id o = id.
Proof.
  unfold has_order. rewrite existsb_exists.
  split; intros (o & Hin & Ho); exists o; split; auto; lia.
Qed.

Lemma next_rowid_not_stored (s : Store) :
  has_order s (next_rowid (map order_id (Orders s))) = false.
Proof.
  destruct (has_order s _) eqn:H; [|reflexivity].
  apply has_order_spec in H as (o & Hin & Ho).
  pose proof (next_rowid_fresh (map order_id (Orders s)) (order_id o)
                (in_map order_id _ _ Hin)).
  lia.
Qed.

Lemma last_cons_default {A : Type} (l : list A) (a d : A) :
  last (a :: l) d = last l a.
Proof.
  revert a d; induction l as [|b l IH]; intros a d; [reflexivity|].
  change (last (a :: b :: l) d) with (last (b :: l) d).
  now rewrite (IH b d), (IH b a).
Qed.

Section CreateOrder.
Context {E : Engine}.

Lemma claude_create_order_some s now dr tp cid id s' :
  ClaudeLogic.OrderManager.create_order s now dr tp cid = (Some id, s') ->
  id = next_rowid (map order_id (Orders s)) /\
  s' = with_Orders s (Orders s ++ [mkOrder id dr tp now "Pending" cid]) /\
  dr <> "" /\ (0 < tp)%Q.
Proof.
  unfold ClaudeLogic.OrderManager.create_order,
    ClaudeLogic.DatabaseManager.execute_with_lastrowid.
  destruct (String.eqb_spec dr "") as [->|Hne]; simpl; [discriminate|].
  destruct (Qle_bool tp 0) eqn:Hle; [discriminate|].
  destruct (raises s _); [discriminate|].
  destruct (commit_raises s _); simpl; intro H; inversion H; subst.
  repeat split; auto.
  apply Qnot_le_lt; intro Hc; apply Qle_bool_iff in Hc; congruence.
Qed.

(** A returned id is the id the store had next; the row is stored under it
    unless the commit of [backend_logic]'s [create_order] raised. *)
Lemma create_order_of_some v s now dr tp cid id s' :
  create_order_of v s now dr tp cid = (Some id, s') ->
  id = next_rowid (map order_id (Orders s)) /\
  (s' = with_Orders s (Orders s ++ [mkOrder id dr tp now "Pending" cid]) \/
   s' = s).
Proof.
  destruct v; simpl; intro H.
  - unfold BackendLogic.OrderManager.create_order in H.
    destruct (raises s _); [discriminate|].
    destruct (commit_raises s _); simpl in H; inversion H; subst; auto.
  - apply claude_create_order_some in H; tauto.
Qed.

Lemma create_order_of_succeeded v s now dr tp cid :
  succeeded (create_order_of v s now dr tp cid) = true ->
  exists id,
    id = next_rowid (map order_id (Orders s)) /\
    create_order_of v s now dr tp cid
    = (Some id,
       with_Orders s (Orders s ++ [mkOrder id dr tp now "Pending" cid])).
Proof.
  destruct (create_order_of v s now dr tp cid) as [r s'] eqn:Hc.
  unfold succeeded; simpl. destruct r as [id|]; [|discriminate].
  intro Hst. destruct (create_order_of_some _ _ _ _ _ _ _ _ Hc) as [Hid [Hs|Hs]].
  - exists id. subst s'. auto.
  - subst s' id. now rewrite next_rowid_not_stored in Hst.
Qed.

(** The rows a run of successful calls appends: one per call, carrying
    the returned ids, all Pending, every id above the ids that were in
    the table and above the ids returned before it. *)
Lemma create_orders_appends v calls : forall s,
  Forall (fun out => succeeded out = true) (create_orders v s calls) ->
  exists news,
    Orders (final_store s (create_orders v s calls)) = Orders s ++ news /\
    map order_id news = returned_ids (create_orders v s calls) /\
    List.length news = List.length calls /\
    Forall (fun o => status o = "Pending") news /\
    Forall (fun id => forall o, In o (Orders s) -> order_id o < id)
      (returned_ids (create_orders v s calls)) /\
    StronglySorted Z.lt (returned_ids (create_orders v s calls)).
Proof.
  induction calls as [|c rest IH]; intros s H; simpl in *.
  - exists []. unfold final_store; simpl. rewrite app_nil_r.
    repeat split; constructor.
  - inversion H as [|out outs Hok Hrest]; subst; clear H.
    destruct (create_order_of_succeeded _ _ _ _ _ _ Hok) as (id & Hid & Hc).
    rewrite Hc in *; simpl in *.
    unfold final_store in *; simpl map. rewrite last_cons_default.
    destruct (IH _ Hrest) as (news & Hor & Hids & Hlen & Hpend & Hold & Hsorted).
    simpl in Hor, Hold.
    set (row := mkOrder id (call_dish_req c) (call_total_price c)
                  (call_now c) "Pending" (call_cus_id c)) in *.
    exists (row :: news).
    split; [rewrite Hor, <- app_assoc; reflexivity|].
    split; [simpl; now rewrite Hids|].
    split; [simpl; now rewrite Hlen|].
    split; [constructor; auto|].
    split.
    + constructor.
      * intros o Ho. rewrite Hid. apply next_rowid_fresh. now apply in_map.
      * eapply Forall_impl; [|exact Hold].
        intros i Hi o Ho. apply Hi, in_or_app; now left.
    + constructor; [exact Hsorted|].
      eapply Forall_impl; [|exact Hold].
      intros i Hi. apply (Hi row). apply in_or_app; right; now left.
Qed.
End CreateOrder.

Lemma sorted_lt_NoDup (l : list Z) : StronglySorted Z.lt l -> NoDup l.
Proof.
  induction 1 as [|a l Hs IH Hall]; constructor; auto.
  intro Hin. rewrite Forall_forall in Hall. specialize (Hall a Hin). lia.
Qed.

(** In a sequence of [create_order] calls that each stored a row under the
    id they returned (either variant), the returned ids are strictly
    increasing, hence pairwise distinct, and in the resulting store each
    returned id names a stored Order row and every row with that id has
    status Pending. *)
Theorem create_order_ids_increasing {E : Engine} (v : variant) (s : Store)
  (calls : list order_call) :
  Forall (fun out => succeeded out = true) (create_orders v s calls) ->
  List.length (returned_ids (create_orders v s calls)) = List.length calls /\
  StronglySorted Z.lt (returned_ids (create_orders v s calls)) /\
  NoDup (returned_ids (create_orders v s calls)) /\
  Forall (fun id =>
            (exists o,
                In o (Orders (final_store s (create_orders v s calls))) /\
                order_id o = id) /\
            (forall o,
                In o (Orders (final_store s (create_orders v s calls))) ->
                order_id o = id -> status o = "Pending"))
    (returned_ids (create_orders v s calls)).
Proof.
  intro H.
  destruct (create_orders_appends v calls s H)
    as (news & Hor & Hids & Hlen & Hpend & Hold & Hsorted).
  split; [now rewrite <- Hids, length_map|].
  split; [exact Hsorted|].
  split; [now apply sorted_lt_NoDup|].
  rewrite Forall_forall in *. intros id Hid. split.
  - rewrite <- Hids in Hid. apply in_map_iff in Hid as (o & Ho & Hin).
    exists o. split; [rewrite Hor; apply in_or_app; now right|exact Ho].
  - intros o Hin Ho. rewrite Hor in Hin.
    apply in_app_or in Hin as [Hin|Hin].
    + specialize (Hold id Hid o Hin). lia.
    + now apply Hpend.
Qed.

Lemma create_order_ids_increasing_witness :
  List.length
    (returned_ids (@create_orders permissive backend_logic one_customer
                     two_calls))
  = List.length two_calls /\
  StronglySorted Z.lt
    (returned_ids (@create_orders permissive backend_logic one_customer
                     two_calls)) /\
  NoDup
    (returned_ids (@create_orders permissive backend_logic one_customer
                     two_calls)) /\
  Forall (fun id =>
            (exists o,
                In o (Orders (final_store one_customer
                                (@create_orders permissive backend_logic
                                   one_customer two_calls))) /\
                order_id o = id) /\
            (forall o,
                In o (Orders (final_store one_customer
                                (@create_orders permissive backend_logic
                                   one_customer two_calls))) ->
                order_id o = id -> status o = "Pending"))
    (returned_ids (@create_orders permissive backend_logic one_customer
                     two_calls)).
Proof.
  apply (@create_order_ids_increasing permissive backend_logic one_customer
           two_calls).
  repeat constructor.
Defined.

Example two_calls_return_1_and_2 :
  returned_ids (@create_orders permissive backend_logic one_customer two_calls)
  = [1; 2].
Proof. reflexivity. Qed.

(** The slip in [create_order] of [backend_logic] that success, as defined
    above, sets aside: when the commit raises, the insert is rolled back and
    the id is returned all the same, where [claude_logic] returns [None]. *)
Lemma backend_create_order_returns_id_after_failed_commit :
  @BackendLogic.OrderManager.create_order commit_fails one_customer
    order_time0 "Bread" (4 # 1) 1 = (Some 1, one_customer) /\
  @ClaudeLogic.OrderManager.create_order commit_fails one_customer
    order_time0 "Bread" (4 # 1) 1 = (None, one_customer).
Proof. split; reflexivity. Qed.

(** What [create_order] of [claude_logic] returns an id for, it has stored. *)
Lemma claude_returned_is_stored {E : Engine} (calls : list order_call) :
  forall s,
    Forall (fun out => fst out <> None) (create_orders claude_logic s calls) ->
    Forall (fun out => succeeded out = true) (create_orders claude_logic s calls).
Proof.
  induction calls as [|c rest IH]; intros s H; simpl in *; [constructor|].
  inversion H as [|out outs Hsome Hrest]; subst; clear H.
  constructor; [|now apply IH].
  destruct (ClaudeLogic.OrderManager.create_order s (call_now c)
              (call_dish_req c) (call_total_price c) (call_cus_id c))
    as [r s1] eqn:Hc.
  destruct r as [id|]; [|now contradiction Hsome].
  apply claude_create_order_some in Hc as (_ & -> & _).
  unfold succeeded, has_order. simpl.
  rewrite existsb_app. simpl. rewrite Z.eqb_refl. apply orb_true_r.
Qed.

(** In a sequence of [create_order] calls of [claude_logic] that each
    returned an id, the returned ids are strictly increasing and pairwise
    distinct, each names a stored Order row, and every row under a returned
    id is Pending. *)
Lemma claude_create_order_ids_increasing {E : Engine} (s : Store)
  (calls : list order_call) :
  Forall (fun out => fst out <> None) (create_orders claude_logic s calls) ->
  List.length (returned_ids (create_orders claude_logic s calls))
  = List.length calls /\
  StronglySorted Z.lt (returned_ids (create_orders claude_logic s calls)) /\
  NoDup (returned_ids (create_orders claude_logic s calls)) /\
  Forall (fun id =>
            (exists o,
                In o (Orders (final_store s (create_orders claude_logic s calls))) /\
                order_id o = id) /\
            (forall o,
                In o (Orders (final_store s (create_orders claude_logic s calls))) ->
                order_id o = id -> status o = "Pending"))
    (returned_ids (create_orders claude_logic s calls)).
Proof.
  intro H.
  destruct (create_orders_appends claude_logic calls s
              (claude_returned_is_stored calls s H))
    as (news & Hor & Hids & Hlen & Hpend & Hold & Hsorted).
  split; [now rewrite <- Hids, length_map|].
  split; [exact Hsorted|].
  split; [now apply sorted_lt_NoDup|].
  rewrite Forall_forall in *. intros id Hid. split.
  - rewrite <- Hids in Hid. apply in_map_iff in Hid as (o & Ho & Hin).
    exists o. split; [rewrite Hor; apply in_or_app; now right|exact Ho].
  - intros o Hin Ho. rewrite Hor in Hin.
    apply in_app_or in Hin as [Hin|Hin].
    + specialize (Hold id Hid o Hin). lia.
    + now apply Hpend.
Qed.

Example claude_two_calls_return_1_and_2 :
  map fst (@create_orders permissive claude_logic one_customer two_calls)
  = [Some 1; Some 2] /\
  Orders (final_store one_customer
            (@create_orders permissive claude_logic one_customer two_calls))
  = [mkOrder 1 "Bread" (4 # 1) "2024-01-01 10:00:00" "Pending" 1;
     mkOrder 2 "Bread, Soup" (9 # 1) "2024-01-01 10:05:00" "Pending" 1] /\
  StronglySorted Z.lt
    (returned_ids (@create_orders permissive claude_logic one_customer
                     two_calls)).
Proof.
  split; [reflexivity|]. split; [reflexivity|].
  apply (@claude_create_order_ids_increasing permissive one_customer two_calls).
  repeat constructor; discriminate.
Qed.

(** C6, at the failing input: the same order is placed twice through
    [create_order] of [backend_logic], and the commit of the first call
    raises.  Both calls return id 1: the first never stored a row, so the
    ids are neither strictly increasing nor distinct.  [create_order] of
    [claude_logic] returns [None] for the first call and 1 for the second. *)
Theorem backend_create_order_repeats_id :
  map fst (@create_orders (commit_fails_at "2024-01-01 10:00:00") backend_logic
             one_customer retry_calls)
  = [Some 1; Some 1] /\
  map (fun out => Orders (snd out))
    (@create_orders (commit_fails_at "2024-01-01 10:00:00") backend_logic
       one_customer retry_calls)
  = [[]; [mkOrder 1 "Bread" (4 # 1) "2024-01-01 10:05:00" "Pending" 1]] /\
  ~ NoDup
      (returned_ids
         (@create_orders (commit_fails_at "2024-01-01 10:00:00") backend_logic
            one_customer retry_calls)) /\
  ~ StronglySorted Z.lt
      (returned_ids
         (@create_orders (commit_fails_at "2024-01-01 10:00:00") backend_logic
            one_customer retry_calls)) /\
  map fst (@create_orders (commit_fails_at "2024-01-01 10:00:00") claude_logic
             one_customer retry_calls)
  = [None; Some 1].
Proof.
  split; [reflexivity|]. split; [reflexivity|]. split; [|split].
  - intro H. inversion H as [|x l Hnin _]; subst. apply Hnin. now left.
  - intro H. inversion H as [|x l _ Hall]; subst.
    inversion Hall as [|y l' Hlt _]; subst. lia.
  - reflexivity.
Qed.

(** ** What a committed statement leaves in place *)

Lemma rows_kept_refl (s : Store) : rows_kept s s.
Proof. repeat split; exists []; now rewrite app_nil_r. Qed.

Lemma same_but_status_refl (id : Z) (o : Order) : same_but_status id o o.
Proof. repeat split; auto. Qed.

Lemma only_status_of_refl (id : Z) (s : Store) : only_status_of id s s.
Proof.
  repeat split; auto.
  induction (Orders s); constructor; auto using same_but_status_refl.
Qed.

Lemma run_insert_keeps (q : Statement) (s : Store) :
  match q with
  | UpdateOrderStatus _ _ => False
  | _ => True
  end ->
  rows_kept s (run q s).
Proof.
  destruct q; simpl; intro H; try contradiction;
    try apply rows_kept_refl;
    repeat split; simpl;
      first [ eexists; reflexivity | exists []; now rewrite app_nil_r ].
Qed.

Lemma run_update_status_frame (st : string) (id : Z) (s : Store) :
  only_status_of id s (run (UpdateOrderStatus st id) s).
Proof.
  repeat split; auto; simpl.
  induction (Orders s) as [|o l IH]; simpl; constructor; auto.
  destruct (Z.eqb_spec (order_id o) id) as [Heq|Hne].
  - repeat split; auto. intro Hc; contradiction.
  - apply same_but_status_refl.
Qed.

Section Frame.
Context {E : Engine}.

Lemma backend_write_result (s : Store) (q : Statement) :
  BackendLogic.execute_query s q false true =
    if rejected s q then (PyNone, s) else (PyTrue, run q s).
Proof.
  unfold BackendLogic.execute_query, rejected.
  destruct (raises s q); simpl; [reflexivity|].
  now destruct (commit_raises s q).
Qed.

Lemma claude_write_result (s : Store) (q : Statement) :
  ClaudeLogic.DatabaseManager.execute_query s q false true =
    if rejected s q then (PyNone, s) else (PyTrue, run q s).
Proof.
  unfold ClaudeLogic.DatabaseManager.execute_query, rejected.
  destruct (raises s q); simpl; [reflexivity|].
  now destruct (commit_raises s q).
Qed.

Lemma create_order_keeps v s now dr tp cid :
  rows_kept s (snd (create_order_of v s now dr tp cid)).
Proof.
  destruct v; simpl.
  - unfold BackendLogic.OrderManager.create_order.
    destruct (raises s _); simpl; [apply rows_kept_refl|].
    destruct (commit_raises s _); simpl; [apply rows_kept_refl|].
    now apply (run_insert_keeps (InsertOrder dr tp now "Pending" cid)).
  - unfold ClaudeLogic.OrderManager.create_order,
      ClaudeLogic.DatabaseManager.execute_with_lastrowid.
    destruct (_ || _); simpl; [apply rows_kept_refl|].
    destruct (raises s _); simpl; [apply rows_kept_refl|].
    destruct (commit_raises s _); simpl; [apply rows_kept_refl|].
    now apply (run_insert_keeps (InsertOrder dr tp now "Pending" cid)).
Qed.

Lemma create_bill_keeps s now oid eid sid ta :
  rows_kept s (snd (BackendLogic.OrderManager.create_bill s now oid eid sid ta)) /\
  rows_kept s (snd (ClaudeLogic.OrderManager.create_bill s now oid eid sid ta)).
Proof.
  unfold BackendLogic.OrderManager.create_bill,
    ClaudeLogic.OrderManager.create_bill.
  rewrite backend_write_result, claude_write_result.
  destruct (rejected s _); simpl; split;
    try apply rows_kept_refl;
    now apply (run_insert_keeps (InsertBill oid eid sid ta now)).
Qed.

Lemma add_delivery_keeps s now oid sid addr di fe :
  rows_kept s
    (snd (BackendLogic.OrderManager.add_delivery s now oid sid addr di fe)) /\
  rows_kept s
    (snd (ClaudeLogic.OrderManager.add_delivery s now oid sid addr di fe)).
Proof.
  unfold BackendLogic.OrderManager.add_delivery,
    ClaudeLogic.OrderManager.add_delivery.
  rewrite backend_write_result, claude_write_result.
  destruct (rejected s _); simpl; split;
    try apply rows_kept_refl;
    now apply (run_insert_keeps (InsertDelivery oid sid now addr di fe)).
Qed.

Lemma update_status_frame s id st :
  only_status_of id s (snd (BackendLogic.OrderManager.update_status s id st)) /\
  only_status_of id s (snd (ClaudeLogic.OrderManager.update_status s id st)).
Proof.
  unfold BackendLogic.OrderManager.update_status,
    ClaudeLogic.OrderManager.update_status.
  rewrite backend_write_result. split.
  - destruct (rejected s _);
      [apply only_status_of_refl|apply run_update_status_frame].
  - destruct (OrderStatus_of st); simpl; [|apply only_status_of_refl].
    rewrite claude_write_result.
    destruct (rejected s _); simpl;
      [apply only_status_of_refl|apply run_update_status_frame].
Qed.
End Frame.

(** C9: the workflow operations leave every existing Order, Bill and
    Delivery row as it is; [create_order], [deduct_stock_for_order],
    [create_bill] and [add_delivery] at most add rows after them, and
    [update_status order_id status] changes nothing but the status field of
    the Order rows whose id is [order_id]. *)
Theorem workflow_rows_immutable_but_status {E : Engine} :
  (forall v s now dr tp cid,
      rows_kept s (snd (create_order_of v s now dr tp cid))) /\
  (forall s dr,
      rows_kept s
        (snd (BackendLogic.IngredientManager.deduct_stock_for_order s dr))) /\
  (forall s now oid eid sid ta,
      rows_kept s
        (snd (BackendLogic.OrderManager.create_bill s now oid eid sid ta)) /\
      rows_kept s
        (snd (ClaudeLogic.OrderManager.create_bill s now oid eid sid ta))) /\
  (forall s now oid sid addr di fe,
      rows_kept s
        (snd (BackendLogic.OrderManager.add_delivery s now oid sid addr di fe)) /\
      rows_kept s
        (snd (ClaudeLogic.OrderManager.add_delivery s now oid sid addr di fe))) /\
  (forall s id st,
      only_status_of id s
        (snd (BackendLogic.OrderManager.update_status s id st)) /\
      only_status_of id s
        (snd (ClaudeLogic.OrderManager.update_status s id st))).
Proof.
  split; [exact create_order_keeps|].
  split; [intros; apply rows_kept_refl|].
  split; [exact create_bill_keeps|].
  split; [exact add_delivery_keeps|exact update_status_frame].
Qed.

(** ** Customers and their phone numbers *)

Section CustomerAdd.
Context {E : Engine}.


Lemma get_by_phone_missing (s : Store) (phone : string) :
  raises s (SelectCustomerByPhone phone) = false ->
  truthy (fst (ClaudeLogic.CustomerManager.get_by_phone s phone)) = false ->
  ~ In phone (map cus_phone (Customers s)).
Proof.
  unfold ClaudeLogic.CustomerManager.get_by_phone,
    ClaudeLogic.DatabaseManager.execute_query.
  intros Hr; rewrite Hr; simpl.
  destruct (filter _ (Customers s)) as [|c0 l] eqn:Hf; simpl;
    [|discriminate].
  intros _ Hin. apply in_map_iff in Hin as (c & Hph & Hin).
  assert (Hc : In c (filter (fun c => String.eqb (cus_phone c) phone)
                       (Customers s))).
  { apply filter_In; split; auto. now apply String.eqb_eq. }
  rewrite Hf in Hc. destruct Hc.
Qed.

Lemma get_by_phone_reads_only (s : Store) (phone : string) :
  snd (ClaudeLogic.CustomerManager.get_by_phone s phone) = s.
Proof.
  unfold ClaudeLogic.CustomerManager.get_by_phone,
    ClaudeLogic.DatabaseManager.execute_query.
  destruct (raises s _); reflexivity.
Qed.
End CustomerAdd.




(** ** Order status *)

Lemma OrderStatus_of_value (st : OrderStatus) : OrderStatus_of (value st) = Some st.
Proof. destruct st; reflexivity. Qed.

Lemma OrderStatus_of_inv (status : string) (st : OrderStatus) :
  OrderStatus_of status = Some st -> status = value st.
Proof.
  unfold OrderStatus_of.
  repeat match goal with
         | |- context [String.eqb status ?x] =>
             destruct (String.eqb_spec status x) as [->|?]
         end;
    intro H; inversion H; reflexivity.
Qed.

Lemma run_update_status_sets (st : string) (id : Z) (s : Store) (o : Order) :
  In o (Orders (run (UpdateOrderStatus st id) s)) ->
  order_id o = id -> status o = st.
Proof.
  simpl. intros Hin Hid.
  apply in_map_iff in Hin as (o0 & Ho & _).
  destruct (Z.eqb_spec (order_id o0) id) as [Heq|Hne]; subst o.
  - reflexivity.
  - contradiction.
Qed.

(** C3, as the code has it: [update_status] of [claude_logic] refuses a
    status string that is not one of the five values of [OrderStatus],
    leaving the store as it was; a recognised status is written whatever
    status the order has now, so long as the store executes the UPDATE, and
    every order row with that id then carries the new status; when the
    store raises, the call returns [False] and the store is as it was. *)
Theorem update_status_checks_value_only {E : Engine} (s : Store)
  (order_id0 : Z) (status0 : string) :
  (OrderStatus_of status0 = None ->
   ClaudeLogic.OrderManager.update_status s order_id0 status0 = (false, s)) /\
  (rejected s (UpdateOrderStatus status0 order_id0) = true ->
   ClaudeLogic.OrderManager.update_status s order_id0 status0 = (false, s)) /\
  (forall st, OrderStatus_of status0 = Some st ->
   rejected s (UpdateOrderStatus status0 order_id0) = false ->
   ClaudeLogic.OrderManager.update_status s order_id0 status0
     = (true, run (UpdateOrderStatus status0 order_id0) s) /\
   forall o,
     In o (Orders (snd (ClaudeLogic.OrderManager.update_status s order_id0
                          status0))) ->
     order_id o = order_id0 -> status o = status0).
Proof.
  unfold ClaudeLogic.OrderManager.update_status.
  split; [intros ->; reflexivity|].
  split.
  - intros Hr. destruct (OrderStatus_of status0); [|reflexivity].
    now rewrite claude_write_result, Hr.
  - intros st -> Hr. rewrite claude_write_result, Hr. simpl.
    split; [reflexivity|]. apply run_update_status_sets.
Qed.

Lemma update_status_checks_value_only_witness :
  (@ClaudeLogic.OrderManager.update_status permissive one_pending_order 1
     "Shipped" = (false, one_pending_order)) /\
  (@ClaudeLogic.OrderManager.update_status read_only one_pending_order 1
     "Preparing" = (false, one_pending_order)) /\
  (@ClaudeLogic.OrderManager.update_status permissive one_delivered_order 1
     "Pending"
   = (true, run (UpdateOrderStatus "Pending" 1) one_delivered_order)).
Proof.
  split; [|split].
  - apply (proj1 (@update_status_checks_value_only permissive
                    one_pending_order 1 "Shipped")).
    reflexivity.
  - apply (proj1 (proj2 (@update_status_checks_value_only read_only
                           one_pending_order 1 "Preparing"))).
    reflexivity.
  - apply (proj2 (proj2 (@update_status_checks_value_only permissive
                           one_delivered_order 1 "Pending")) PENDING);
      reflexivity.
Defined.

(** C3, counterexample: an order that is Pending goes straight to
    Delivered; the call returns [True] and the new status is stored. *)
Lemma pending_to_delivered_is_persisted :
  @ClaudeLogic.OrderManager.update_status permissive one_pending_order 1
    "Delivered" = (true, one_delivered_order) /\
  @BackendLogic.OrderManager.update_status permissive one_pending_order 1
    "Delivered" = (PyTrue, one_delivered_order).
Proof. split; reflexivity. Qed.

(** ** The executor in fetch-one mode *)

(** C7, as the code has it: in fetch-one mode both executors leave the store
    as it was and return either the first row of the result or [None], and
    [None] is returned exactly when the statement raises or yields no row. *)
Theorem fetch_one_none_covers_failure {E : Engine} (s : Store) (q : Statement) :
  BackendLogic.execute_query s q true false
    = ClaudeLogic.DatabaseManager.execute_query s q true false /\
  snd (ClaudeLogic.DatabaseManager.execute_query s q true false) = s /\
  (fst (ClaudeLogic.DatabaseManager.execute_query s q true false) = PyNone \/
   exists r,
     fst (ClaudeLogic.DatabaseManager.execute_query s q true false) = PyRow r /\
     hd_error (rows q s) = Some r) /\
  (fst (ClaudeLogic.DatabaseManager.execute_query s q true false) = PyNone <->
   raises s q = true \/ rows q s = []).
Proof.
  unfold BackendLogic.execute_query, ClaudeLogic.DatabaseManager.execute_query.
  split; [reflexivity|].
  destruct (raises s q); simpl.
  - repeat split; auto.
  - destruct (rows q s) as [|r l]; simpl.
    + repeat split; auto.
    + split; [reflexivity|]. split; [right; now exists r|].
      split; [discriminate|]. intros [H|H]; discriminate.
Qed.

(** C7, counterexample: a lookup that matches no row and a lookup that the
    store fails to execute hand the caller the same value. *)
Lemma not_found_looks_like_failure :
  rows (SelectCustomerByPhone "0901") empty_store = [] /\
  @raises permissive empty_store (SelectCustomerByPhone "0901") = false /\
  @raises lookup_fails one_customer (SelectCustomerByPhone "0901") = true /\
  fst (@ClaudeLogic.DatabaseManager.execute_query permissive empty_store
         (SelectCustomerByPhone "0901") true false)
  = fst (@ClaudeLogic.DatabaseManager.execute_query lookup_fails one_customer
           (SelectCustomerByPhone "0901") true false) /\
  fst (@BackendLogic.execute_query permissive empty_store
         (SelectCustomerByPhone "0901") true false)
  = fst (@BackendLogic.execute_query lookup_fails one_customer
           (SelectCustomerByPhone "0901") true false).
Proof. repeat split. Qed.

(** ** Bills *)

Lemma referential_enforces : enforces_references referential.
Proof. intros s oid eid sid ta bt H. simpl. now rewrite H. Qed.

(** C8, as the code has it: [create_bill] looks nothing up itself and sends
    the INSERT as it is.  When the store raises, as a store enforcing the
    references does for a missing order, employee or shipper, the call
    returns [None] ([False] in [claude_logic]) without an error kind and no
    Bill row is inserted; when the store does not raise, the Bill row is
    inserted with the ids as given. *)
Theorem create_bill_follows_store {E : Engine} (s : Store) (now : string)
  (oid eid sid : Z) (ta : Q) :
  (rejected s (InsertBill oid eid sid ta now) = true ->
   BackendLogic.OrderManager.create_bill s now oid eid sid ta = (PyNone, s) /\
   ClaudeLogic.OrderManager.create_bill s now oid eid sid ta = (false, s)) /\
  (rejected s (InsertBill oid eid sid ta now) = false ->
   BackendLogic.OrderManager.create_bill s now oid eid sid ta
     = (PyTrue, run (InsertBill oid eid sid ta now) s) /\
   ClaudeLogic.OrderManager.create_bill s now oid eid sid ta
     = (true, run (InsertBill oid eid sid ta now) s)) /\
  (enforces_references E ->
   has_order s oid && has_employee s eid && has_shipper s sid = false ->
   BackendLogic.OrderManager.create_bill s now oid eid sid ta = (PyNone, s) /\
   ClaudeLogic.OrderManager.create_bill s now oid eid sid ta = (false, s)).
Proof.
  assert (Hfail : rejected s (InsertBill oid eid sid ta now) = true ->
    BackendLogic.OrderManager.create_bill s now oid eid sid ta = (PyNone, s) /\
    ClaudeLogic.OrderManager.create_bill s now oid eid sid ta = (false, s)).
  { intro Hr.
    unfold BackendLogic.OrderManager.create_bill,
      ClaudeLogic.OrderManager.create_bill.
    rewrite backend_write_result, claude_write_result, Hr.
    split; reflexivity. }
  split; [exact Hfail|]. split.
  - intro Hr.
    unfold BackendLogic.OrderManager.create_bill,
      ClaudeLogic.OrderManager.create_bill.
    rewrite backend_write_result, claude_write_result, Hr.
    split; reflexivity.
  - intros Henf Hdangling. apply Hfail. unfold rejected.
    now rewrite (Henf s oid eid sid ta now Hdangling).
Qed.

Lemma create_bill_follows_store_witness :
  (@ClaudeLogic.OrderManager.create_bill read_only one_pending_order
     bill_time0 1 1 1 (4 # 1) = (false, one_pending_order)) /\
  (@ClaudeLogic.OrderManager.create_bill permissive one_pending_order
     bill_time0 1 1 1 (4 # 1)
   = (true, run (InsertBill 1 1 1 (4 # 1) bill_time0) one_pending_order)) /\
  (@ClaudeLogic.OrderManager.create_bill referential one_pending_order
     bill_time0 999 1 1 (4 # 1) = (false, one_pending_order)).
Proof.
  split; [|split].
  - apply (proj1 (@create_bill_follows_store read_only one_pending_order
                    bill_time0 1 1 1 (4 # 1))).
    reflexivity.
  - apply (proj1 (proj2 (@create_bill_follows_store permissive
                           one_pending_order bill_time0 1 1 1 (4 # 1)))).
    reflexivity.
  - apply (proj2 (proj2 (@create_bill_follows_store referential
                           one_pending_order bill_time0 999 1 1 (4 # 1)))).
    + exact referential_enforces.
    + reflexivity.
Defined.

(** C8, counterexample: on a connection that does not enforce references,
    a bill for order 999, which does not exist, is inserted and the call
    reports success. *)
Lemma bill_for_missing_order_is_inserted :
  has_order empty_store 999 = false /\
  @ClaudeLogic.OrderManager.create_bill permissive empty_store bill_time0
    999 1 1 (10 # 1)
  = (true, with_Bills empty_store [mkBill 1 999 1 1 (10 # 1) bill_time0]) /\
  @BackendLogic.OrderManager.create_bill permissive empty_store bill_time0
    999 1 1 (10 # 1)
  = (PyTrue, with_Bills empty_store [mkBill 1 999 1 1 (10 # 1) bill_time0]).
Proof. repeat split. Qed.

(** ** Stock deduction *)

(** C2, counterexample: with 2 kg of flour in stock and bread requiring 3,
    the call still reports success. *)
Lemma deduct_succeeds_on_short_stock : ~ deduct_fails_when_insufficient.
Proof.
  intro H.
  specialize (H bread_recipe (flour (2 # 1)) "Bread" eq_refl).
  discriminate H.
Qed.

(** C2, as the code has it: [deduct_stock_for_order] checks nothing and
    deducts nothing: every call returns [True] and leaves the store, every
    ingredient's stock included, as it was, and so does any run of calls. *)
Theorem deduct_stock_is_a_placeholder (s : Store)
  (dish_req_string : string) (requests : list string) :
  BackendLogic.IngredientManager.deduct_stock_for_order s dish_req_string
    = (true, s) /\
  deduct_all s requests = s /\
  Ingredients (deduct_all s requests) = Ingredients s.
Proof.
  split; [reflexivity|].
  assert (H : deduct_all s requests = s).
  { unfold deduct_all. induction requests as [|r l IH]; simpl; auto. }
  now rewrite H.
Qed.

(** ** The three steps of placing an order *)

(** C1, as the code has it: there is no composed operation and no shared
    transaction; each step commits on its own connection.  A failed
    [create_order] writes nothing.  After a successful [create_order],
    [deduct_stock_for_order] succeeds without touching the store, and a
    [create_bill] that then fails inserts no Bill row and changes no stock,
    but the Order row committed by the first step is still in the store. *)
Theorem steps_commit_separately {E : Engine} (v : variant) (s : Store)
  (now : string) (dr : string) (tp : Q) (cid : Z) :
  (forall s1, create_order_of v s now dr tp cid = (None, s1) -> s1 = s) /\
  (succeeded (create_order_of v s now dr tp cid) = true ->
   exists id s1,
     create_order_of v s now dr tp cid = (Some id, s1) /\
     Orders s1 = Orders s ++ [mkOrder id dr tp now "Pending" cid] /\
     BackendLogic.IngredientManager.deduct_stock_for_order s1 dr = (true, s1) /\
     forall now' eid sid ta,
       rejected s1 (InsertBill id eid sid ta now') = true ->
       BackendLogic.OrderManager.create_bill s1 now' id eid sid ta
         = (PyNone, s1) /\
       ClaudeLogic.OrderManager.create_bill s1 now' id eid sid ta
         = (false, s1) /\
       Ingredients s1 = Ingredients s /\
       Bills s1 = Bills s).
Proof.
  split.
  - intros s1 H. destruct v; simpl in H.
    + unfold BackendLogic.OrderManager.create_order in H.
      destruct (raises s _); [inversion H; reflexivity|].
      destruct (commit_raises s _); inversion H.
    + unfold ClaudeLogic.OrderManager.create_order,
        ClaudeLogic.DatabaseManager.execute_with_lastrowid in H.
      destruct (_ || _); [inversion H; reflexivity|].
      destruct (raises s _); [inversion H; reflexivity|].
      destruct (commit_raises s _); inversion H; reflexivity.
  - intro Hok.
    destruct (create_order_of_succeeded _ _ _ _ _ _ Hok) as (id & _ & Hc).
    exists id. eexists. split; [exact Hc|].
    split; [reflexivity|]. split; [reflexivity|].
    intros now' eid sid ta Hr.
    unfold BackendLogic.OrderManager.create_bill,
      ClaudeLogic.OrderManager.create_bill.
    rewrite backend_write_result, claude_write_result, Hr.
    repeat split.
Qed.

Lemma steps_commit_separately_witness :
  snd (@create_order_of referential claude_logic shop order_time0 "Bread"
         (4 # 1) 2) = shop /\
  exists id s1,
    @create_order_of referential backend_logic shop order_time0 "Bread"
      (4 # 1) 1 = (Some id, s1) /\
    Orders s1 = Orders shop ++ [mkOrder id "Bread" (4 # 1) order_time0 "Pending" 1] /\
    BackendLogic.IngredientManager.deduct_stock_for_order s1 "Bread"
      = (true, s1) /\
    forall now' eid sid ta,
      @rejected referential s1 (InsertBill id eid sid ta now') = true ->
      @BackendLogic.OrderManager.create_bill referential s1 now' id eid sid ta
        = (PyNone, s1) /\
      @ClaudeLogic.OrderManager.create_bill referential s1 now' id eid sid ta
        = (false, s1) /\
      Ingredients s1 = Ingredients shop /\
      Bills s1 = Bills shop.
Proof.
  split.
  - apply (proj1 (@steps_commit_separately referential claude_logic shop
                    order_time0 "Bread" (4 # 1) 2)).
    reflexivity.
  - apply (proj2 (@steps_commit_separately referential backend_logic shop
                    order_time0 "Bread" (4 # 1) 1)).
    reflexivity.
Defined.

(** C1, counterexample: in a store that enforces references, the order is
    created, the stock step succeeds, the bill names employee 7, who does
    not exist, and fails; the Order row is there afterwards. *)
Lemma order_visible_after_failed_bill :
  let '(oid, s1) :=
    @BackendLogic.OrderManager.create_order referential shop order_time0
      "Bread" (4 # 1) 1 in
  let '(ok, s2) :=
    BackendLogic.IngredientManager.deduct_stock_for_order s1 "Bread" in
  let '(billed, s3) :=
    @BackendLogic.OrderManager.create_bill referential s2 bill_time0 1 7 1
      (4 # 1) in
  oid = Some 1 /\ ok = true /\ billed = PyNone /\
  Orders shop = [] /\
  Orders s3 = [mkOrder 1 "Bread" (4 # 1) order_time0 "Pending" 1] /\
  Bills s3 = [].
Proof. repeat split. Qed.

(** ** Validation in [create_order] *)

Section Validation.
Context {E : Engine}.

(** [create_order] of [claude_logic]: an empty request or a total that is
    not positive is refused and nothing is inserted; otherwise, where the
    store executes the INSERT, one Order row is appended, Pending and
    stamped with the current time, and its id is returned. *)
Lemma claude_create_order_validates s now dr tp cid :
  (dr = "" \/ (tp <= 0)%Q ->
   ClaudeLogic.OrderManager.create_order s now dr tp cid = (None, s)) /\
  (dr <> "" -> (0 < tp)%Q ->
   rejected s (InsertOrder dr tp now "Pending" cid) = false ->
   ClaudeLogic.OrderManager.create_order s now dr tp cid
   = (Some (next_rowid (map order_id (Orders s))),
      with_Orders s
        (Orders s ++
           [mkOrder (next_rowid (map order_id (Orders s))) dr tp now
              "Pending" cid]))) /\
  (rejected s (InsertOrder dr tp now "Pending" cid) = true ->
   ClaudeLogic.OrderManager.create_order s now dr tp cid = (None, s)).
Proof.
  unfold ClaudeLogic.OrderManager.create_order,
    ClaudeLogic.DatabaseManager.execute_with_lastrowid.
  split; [|split].
  - intros [->|Hle]; [reflexivity|].
    apply Qle_bool_iff in Hle. rewrite Hle. now rewrite orb_true_r.
  - intros Hne Hpos Hr.
    destruct (String.eqb_spec dr "") as [Heq|_]; [contradiction|].
    destruct (Qle_bool tp 0) eqn:Hle.
    + apply Qle_bool_iff in Hle. exfalso. now apply (Qlt_not_le 0 tp).
    + simpl. apply orb_false_elim in Hr as [Hr1 Hr2].
      simpl in Hr1, Hr2. now rewrite Hr1, Hr2.
  - intros Hr. destruct (_ || _); [reflexivity|].
    unfold rejected in Hr. simpl in *.
    destruct (raises s _); [reflexivity|].
    simpl in Hr. now rewrite Hr.
Qed.
End Validation.

(** C4, at the failing input: [create_order] of [backend_logic] is given an
    empty dish request and a total of 0; it inserts the row and returns its
    id. *)
Theorem backend_create_order_skips_validation :
  @BackendLogic.OrderManager.create_order permissive one_customer order_time0
    "" 0 1
  = (Some 1, with_Orders one_customer [mkOrder 1 "" 0 order_time0 "Pending" 1]) /\
  @ClaudeLogic.OrderManager.create_order permissive one_customer order_time0
    "" 0 1
  = (None, one_customer).
Proof. split; reflexivity. Qed.

(** ** Stock never negative *)

Section Stock.
Context {E : Engine}.

Lemma Qlt_bool_false (a b : Q) : Qlt_bool a b = false -> (b <= a)%Q.
Proof.
  unfold Qlt_bool. intro H. apply Qle_bool_iff.
  now destruct (Qle_bool b a).
Qed.

(** The guarded writers of [claude_logic] and the stock step of
    [backend_logic] keep every stock non-negative. *)
Lemma guarded_writers_keep_stock_nonneg (s : Store) :
  stock_nonneg s ->
  (forall name st un ex su,
      stock_nonneg (snd (ClaudeLogic.IngredientManager.add s name st un ex su))) /\
  (forall id new_stock,
      stock_nonneg
        (snd (ClaudeLogic.IngredientManager.update_stock s id new_stock))) /\
  (forall dr,
      stock_nonneg
        (snd (BackendLogic.IngredientManager.deduct_stock_for_order s dr))).
Proof.
  intro Hs. split; [|split].
  - intros name st un ex su. unfold ClaudeLogic.IngredientManager.add.
    destruct (String.eqb name ""); simpl; [exact Hs|].
    destruct (Qlt_bool st 0) eqn:Hlt; [exact Hs|].
    rewrite claude_write_result.
    destruct (rejected s _); simpl; [exact Hs|].
    unfold stock_nonneg in *; simpl.
    apply Forall_app; split; [exact Hs|].
    constructor; [|constructor]. simpl. now apply Qlt_bool_false.
  - intros id ns. unfold ClaudeLogic.IngredientManager.update_stock.
    destruct (Qlt_bool ns 0) eqn:Hlt; [exact Hs|].
    rewrite claude_write_result.
    destruct (rejected s _); simpl; [exact Hs|].
    unfold stock_nonneg in *; simpl.
    apply Forall_forall. intros i Hin.
    apply in_map_iff in Hin as (i0 & <- & Hin0).
    destruct (ingre_id i0 =? id).
    + simpl. now apply Qlt_bool_false.
    + rewrite Forall_forall in Hs. now apply Hs.
  - intros dr. exact Hs.
Qed.
End Stock.

(** C5, at the failing input: flour is in stock at 5 kg; [update_stock] of
    [backend_logic] and of [backend], and [update] of [claude_logic], are
    given -5 and store it, where [update_stock] of [claude_logic] refuses. *)
Theorem unguarded_update_stores_negative_stock :
  stock_nonneg shop /\
  Ingredients
    (snd (@BackendLogic.IngredientManager.update_stock permissive shop 1 (-5 # 1)))
  = [mkIngredient 1 "Flour" (-5 # 1) "kg" "2025-01-01" "Mill"] /\
  Ingredients
    (snd (@Backend.Ingredient_manager.update_stock permissive shop 1 (-5 # 1)))
  = [mkIngredient 1 "Flour" (-5 # 1) "kg" "2025-01-01" "Mill"] /\
  Ingredients
    (snd (@ClaudeLogic.IngredientManager.update permissive shop 1 "Flour"
            (-5 # 1) "kg" "2025-01-01" "Mill"))
  = [mkIngredient 1 "Flour" (-5 # 1) "kg" "2025-01-01" "Mill"] /\
  ~ stock_nonneg
      (snd (@BackendLogic.IngredientManager.update_stock permissive shop 1
              (-5 # 1))) /\
  @ClaudeLogic.IngredientManager.update_stock permissive shop 1 (-5 # 1)
  = (false, shop).
Proof.
  split.
  { repeat constructor. simpl. discriminate. }
  repeat split.
  intro H. inversion H as [|i l Hneg _]; subst.
  simpl in Hneg. apply Hneg. reflexivity.
Qed.

(** * Further properties of the workflow *)

(** ** Ids stay unique *)

Lemma NoDup_snoc_fresh (ids : list Z) :
  NoDup ids -> NoDup (ids ++ [next_rowid ids]).
Proof.
  intro H. apply NoDup_app; [exact H|repeat constructor; auto|].
  intros x Hx [<-|[]]. pose proof (next_rowid_fresh ids _ Hx). lia.
Qed.

Lemma map_id_update {A : Type} (key : A -> Z) (f : A -> A) (id : Z)
  (l : list A) :
  (forall a, key (f a) = key a) ->
  map key (map (fun a => if key a =? id then f a else a) l) = map key l.
Proof.
  intro Hf. rewrite map_map. apply map_ext. intro a.
  destruct (key a =? id); auto.
Qed.

Lemma run_keeps_ids_unique (q : Statement) (s : Store) :
  ids_unique s -> ids_unique (run q s).
Proof.
  intros (Hc & He & Hsh & Hi & Ho & Hb & Hd).
  destruct q; unfold ids_unique; simpl;
    rewrite ?map_app; simpl;
    rewrite ?(map_id_update ingre_id), ?(map_id_update order_id);
    auto 10 using NoDup_snoc_fresh.
Qed.

Lemma create_order_keeps_ids_unique {E : Engine} v s now dr tp cid :
  ids_unique s -> ids_unique (snd (create_order_of v s now dr tp cid)).
Proof.
  intro H.
  pose proof (run_keeps_ids_unique (InsertOrder dr tp now "Pending" cid) s H)
    as Hins.
  destruct v; simpl.
  - unfold BackendLogic.OrderManager.create_order.
    destruct (raises s _); simpl; [exact H|].
    destruct (commit_raises s _); simpl; [exact H|exact Hins].
  - unfold ClaudeLogic.OrderManager.create_order,
      ClaudeLogic.DatabaseManager.execute_with_lastrowid.
    destruct (_ || _); simpl; [exact H|].
    destruct (raises s _); simpl; [exact H|].
    destruct (commit_raises s _); simpl; [exact H|exact Hins].
Qed.

(** X1: a store in which no table holds two rows under one id stays so
    under every write of the three executors, under
    [execute_with_lastrowid] and under [create_order] of both variants,
    whether the store executes the statement or raises. *)
Theorem writes_keep_ids_unique {E : Engine} (s : Store) (q : Statement) :
  ids_unique s ->
  ids_unique (snd (Backend.exe_query s q true false)) /\
  ids_unique (snd (BackendLogic.execute_query s q false true)) /\
  ids_unique (snd (ClaudeLogic.DatabaseManager.execute_query s q false true)) /\
  ids_unique (snd (ClaudeLogic.DatabaseManager.execute_with_lastrowid s q)) /\
  (forall v now dr tp cid,
      ids_unique (snd (create_order_of v s now dr tp cid))).
Proof.
  intro H. pose proof (run_keeps_ids_unique q s H) as Hq.
  unfold Backend.exe_query, BackendLogic.execute_query,
    ClaudeLogic.DatabaseManager.execute_query,
    ClaudeLogic.DatabaseManager.execute_with_lastrowid.
  do 4 (split;
          [destruct (raises s q), (commit_raises s q); simpl; assumption|]).
  intros. now apply create_order_keeps_ids_unique.
Qed.

Lemma shop_ids_unique : ids_unique shop.
Proof. repeat split; repeat constructor; simpl; intuition discriminate. Qed.

Lemma writes_keep_ids_unique_witness :
  ids_unique
    (snd (@BackendLogic.execute_query permissive shop
            (InsertCustomer "Binh" "0902") false true)) /\
  ids_unique
    (snd (@create_order_of permissive claude_logic shop order_time0 "Bread"
            (4 # 1) 1)).
Proof.
  destruct (@writes_keep_ids_unique permissive shop
              (InsertCustomer "Binh" "0902") shop_ids_unique)
    as (_ & Hb & _ & _ & Hc).
  split; [exact Hb|apply Hc].
Defined.

(** ** The stored statuses *)

Lemma run_keeps_statuses_valid (q : Statement) (s : Store) :
  match q with
  | InsertOrder _ _ _ st _ | UpdateOrderStatus st _ => OrderStatus_of st <> None
  | _ => True
  end ->
  statuses_valid s -> statuses_valid (run q s).
Proof.
  unfold statuses_valid. destruct q; simpl; intros Hq Hs; auto.
  - apply Forall_app; split; [exact Hs|]. repeat constructor. exact Hq.
  - apply Forall_forall. intros o Hin.
    apply in_map_iff in Hin as (o0 & <- & Hin0).
    destruct (order_id o0 =? order_id0); [exact Hq|].
    rewrite Forall_forall in Hs. now apply Hs.
Qed.

(** X2: the order workflow of [claude_logic] never stores a status outside
    the five values of [OrderStatus]: if every stored order has one of them,
    so it is after [create_order], [update_status] (whatever string it is
    given), [create_bill] and [add_delivery]. *)
Theorem claude_workflow_keeps_statuses_valid {E : Engine} (s : Store) :
  statuses_valid s ->
  (forall now dr tp cid,
      statuses_valid (snd (ClaudeLogic.OrderManager.create_order s now dr tp cid))) /\
  (forall id st,
      statuses_valid (snd (ClaudeLogic.OrderManager.update_status s id st))) /\
  (forall now oid eid sid ta,
      statuses_valid
        (snd (ClaudeLogic.OrderManager.create_bill s now oid eid sid ta))) /\
  (forall now oid sid addr di fe,
      statuses_valid
        (snd (ClaudeLogic.OrderManager.add_delivery s now oid sid addr di fe))).
Proof.
  intro H. split; [|split; [|split]].
  - intros now dr tp cid.
    unfold ClaudeLogic.OrderManager.create_order,
      ClaudeLogic.DatabaseManager.execute_with_lastrowid.
    destruct (_ || _); simpl; [exact H|].
    destruct (raises s _); simpl; [exact H|].
    destruct (commit_raises s _); simpl; [exact H|].
    apply (run_keeps_statuses_valid (InsertOrder dr tp now "Pending" cid));
      [discriminate|exact H].
  - intros id st. unfold ClaudeLogic.OrderManager.update_status.
    destruct (OrderStatus_of st) eqn:Hst; simpl; [|exact H].
    rewrite claude_write_result. destruct (rejected s _); simpl; [exact H|].
    apply (run_keeps_statuses_valid (UpdateOrderStatus st id)); [|exact H].
    simpl. congruence.
  - intros now oid eid sid ta. unfold ClaudeLogic.OrderManager.create_bill.
    rewrite claude_write_result. destruct (rejected s _); simpl; exact H.
  - intros now oid sid addr di fe.
    unfold ClaudeLogic.OrderManager.add_delivery.
    rewrite claude_write_result. destruct (rejected s _); simpl; exact H.
Qed.

Lemma claude_workflow_keeps_statuses_valid_witness :
  statuses_valid
    (snd (@ClaudeLogic.OrderManager.update_status permissive one_pending_order
            1 "Ready")) /\
  statuses_valid
    (snd (@ClaudeLogic.OrderManager.update_status permissive one_pending_order
            1 "Lost")).
Proof.
  assert (H : statuses_valid one_pending_order).
  { repeat constructor. discriminate. }
  destruct (@claude_workflow_keeps_statuses_valid permissive one_pending_order H)
    as (_ & Hu & _).
  split; apply Hu.
Defined.

(** ** Updating an order's status *)

Lemma map_update_absent {A : Type} (key : A -> Z) (f : A -> A) (id : Z)
  (l : list A) :
  existsb (fun a => key a =? id) l = false ->
  map (fun a => if key a =? id then f a else a) l = l.
Proof.
  induction l as [|a l IH]; simpl; [reflexivity|].
  intro H. apply orb_false_elim in H as [Ha Hl].
  now rewrite Ha, IH.
Qed.

Lemma with_Orders_same (s : Store) : with_Orders s (Orders s) = s.
Proof. now destruct s. Qed.

Lemma with_Ingredients_same (s : Store) : with_Ingredients s (Ingredients s) = s.
Proof. now destruct s. Qed.

Lemma run_update_status_absent (st : string) (id : Z) (s : Store) :
  has_order s id = false -> run (UpdateOrderStatus st id) s = s.
Proof.
  intro H. simpl. rewrite (map_update_absent order_id); [|exact H].
  apply with_Orders_same.
Qed.

(** X3: [update_status] does not look for the order.  For an id that no
    stored order has, the call leaves the store as it was, and where the
    store executes the UPDATE it still reports success: [True], given a
    recognised status in [claude_logic], given any string in
    [backend_logic]. *)
Theorem update_status_of_missing_order {E : Engine} (s : Store) (id : Z)
  (st : string) :
  has_order s id = false ->
  rejected s (UpdateOrderStatus st id) = false ->
  BackendLogic.OrderManager.update_status s id st = (PyTrue, s) /\
  (OrderStatus_of st <> None ->
   ClaudeLogic.OrderManager.update_status s id st = (true, s)).
Proof.
  intros Hmiss Hacc.
  unfold BackendLogic.OrderManager.update_status,
    ClaudeLogic.OrderManager.update_status.
  rewrite backend_write_result, Hacc, run_update_status_absent by exact Hmiss.
  split; [reflexivity|].
  destruct (OrderStatus_of st); [|congruence]. intros _.
  now rewrite claude_write_result, Hacc, run_update_status_absent.
Qed.

Lemma update_status_of_missing_order_witness :
  @BackendLogic.OrderManager.update_status permissive one_pending_order 42
    "Ready" = (PyTrue, one_pending_order) /\
  @ClaudeLogic.OrderManager.update_status permissive one_pending_order 42
    "Ready" = (true, one_pending_order).
Proof.
  destruct (@update_status_of_missing_order permissive one_pending_order 42
              "Ready" eq_refl eq_refl) as [Hb Hc].
  split; [exact Hb|apply Hc; discriminate].
Defined.

Lemma run_update_status_twice (st1 st2 : string) (id : Z) (s : Store) :
  run (UpdateOrderStatus st2 id) (run (UpdateOrderStatus st1 id) s)
  = run (UpdateOrderStatus st2 id) s.
Proof.
  simpl. unfold with_Orders; simpl. f_equal.
  rewrite map_map. apply map_ext. intro o.
  destruct (Z.eqb_spec (order_id o) id) as [Heq|Hne]; simpl.
  - rewrite Heq, Z.eqb_refl. reflexivity.
  - apply Z.eqb_neq in Hne. now rewrite Hne.
Qed.

(** X4: the last status written wins.  Two [update_status] calls on one
    order that the store both executes leave the store as the second call
    alone would; the first status leaves no trace, and writing the same
    status twice is writing it once. *)
Theorem update_status_last_write_wins {E : Engine} (s : Store) (id : Z)
  (st1 st2 : string) :
  OrderStatus_of st1 <> None -> OrderStatus_of st2 <> None ->
  rejected s (UpdateOrderStatus st1 id) = false ->
  rejected s (UpdateOrderStatus st2 id) = false ->
  rejected (run (UpdateOrderStatus st1 id) s) (UpdateOrderStatus st2 id) = false ->
  ClaudeLogic.OrderManager.update_status
    (snd (ClaudeLogic.OrderManager.update_status s id st1)) id st2
  = ClaudeLogic.OrderManager.update_status s id st2 /\
  snd (BackendLogic.OrderManager.update_status
         (snd (BackendLogic.OrderManager.update_status s id st1)) id st2)
  = snd (BackendLogic.OrderManager.update_status s id st2).
Proof.
  intros H1 H2 Ha1 Ha2 Ha12. split.
  - unfold ClaudeLogic.OrderManager.update_status.
    destruct (OrderStatus_of st1); [|congruence].
    destruct (OrderStatus_of st2); [|congruence].
    rewrite (claude_write_result s (UpdateOrderStatus st1 id)), Ha1.
    cbn [snd].
    rewrite !claude_write_result, Ha12, Ha2, run_update_status_twice.
    reflexivity.
  - unfold BackendLogic.OrderManager.update_status.
    rewrite (backend_write_result s (UpdateOrderStatus st1 id)), Ha1.
    cbn [snd].
    rewrite !backend_write_result, Ha12, Ha2, run_update_status_twice.
    reflexivity.
Qed.

Lemma update_status_last_write_wins_witness :
  @ClaudeLogic.OrderManager.update_status permissive
    (snd (@ClaudeLogic.OrderManager.update_status permissive one_pending_order
            1 "Cancelled")) 1 "Delivered"
  = @ClaudeLogic.OrderManager.update_status permissive one_pending_order 1
      "Delivered".
Proof.
  apply (@update_status_last_write_wins permissive one_pending_order 1
           "Cancelled" "Delivered");
    first [discriminate | reflexivity].
Defined.

Lemma map_update_old_rows (st : string) (id : Z) (l : list Order) :
  (forall o, In o l -> order_id o < id) ->
  map (fun o => if order_id o =? id then set_status st o else o) l = l.
Proof.
  intro H. apply (map_update_absent order_id).
  destruct (existsb _ l) eqn:Hex; [|reflexivity].
  apply existsb_exists in Hex as (o & Hin & Ho).
  specialize (H o Hin). lia.
Qed.

(** X5: an order that was just created can be advanced without touching
    any other: after a successful [create_order] returned [id], an
    [update_status id status] with a recognised status that the store
    executes leaves every earlier Order row as it was and the new row with
    [status] in place of Pending. *)
Theorem update_status_after_create_order {E : Engine} (v : variant)
  (s : Store) (now dr : string) (tp : Q) (cid : Z) (st : string) :
  succeeded (create_order_of v s now dr tp cid) = true ->
  OrderStatus_of st <> None ->
  (forall id s1, create_order_of v s now dr tp cid = (Some id, s1) ->
                 rejected s1 (UpdateOrderStatus st id) = false) ->
  exists id s1,
    create_order_of v s now dr tp cid = (Some id, s1) /\
    fst (ClaudeLogic.OrderManager.update_status s1 id st) = true /\
    Orders (snd (ClaudeLogic.OrderManager.update_status s1 id st))
    = Orders s ++ [mkOrder id dr tp now st cid] /\
    Orders (snd (BackendLogic.OrderManager.update_status s1 id st))
    = Orders s ++ [mkOrder id dr tp now st cid].
Proof.
  intros Hok Hst Hacc.
  destruct (create_order_of_succeeded _ _ _ _ _ _ Hok) as (id & Hid & Hc).
  specialize (Hacc _ _ Hc).
  eexists; eexists. split; [exact Hc|].
  unfold ClaudeLogic.OrderManager.update_status,
    BackendLogic.OrderManager.update_status.
  rewrite backend_write_result, Hacc.
  destruct (OrderStatus_of st); [|congruence].
  rewrite claude_write_result, Hacc. simpl.
  rewrite map_app, map_update_old_rows.
  - simpl. rewrite Z.eqb_refl. auto.
  - intros row Hrow. rewrite Hid. apply next_rowid_fresh. now apply in_map.
Qed.

Lemma update_status_after_create_order_witness :
  exists id s1,
    @create_order_of permissive claude_logic one_pending_order order_time0
      "Soup" (5 # 1) 1 = (Some id, s1) /\
    fst (@ClaudeLogic.OrderManager.update_status permissive s1 id "Preparing")
    = true /\
    Orders (snd (@ClaudeLogic.OrderManager.update_status permissive s1 id
                   "Preparing"))
    = Orders one_pending_order
        ++ [mkOrder id "Soup" (5 # 1) order_time0 "Preparing" 1] /\
    Orders (snd (@BackendLogic.OrderManager.update_status permissive s1 id
                   "Preparing"))
    = Orders one_pending_order
        ++ [mkOrder id "Soup" (5 # 1) order_time0 "Preparing" 1].
Proof.
  apply (@update_status_after_create_order permissive claude_logic
           one_pending_order order_time0 "Soup" (5 # 1) 1 "Preparing");
    first [discriminate | reflexivity].
Defined.

(** ** A commit that fails in [create_order] *)

(** X6: when the INSERT executes and the commit raises, [create_order] of
    [backend_logic] still returns the id the cursor reported, although the
    insert was rolled back: the store is as it was and holds no order under
    the returned id.  [create_order] of [claude_logic] returns [None] then. *)
Theorem create_order_after_failed_commit {E : Engine} (s : Store)
  (now dr : string) (tp : Q) (cid : Z) :
  raises s (InsertOrder dr tp now "Pending" cid) = false ->
  commit_raises s (InsertOrder dr tp now "Pending" cid) = true ->
  BackendLogic.OrderManager.create_order s now dr tp cid
  = (Some (next_rowid (map order_id (Orders s))), s) /\
  has_order s (next_rowid (map order_id (Orders s))) = false /\
  succeeded (BackendLogic.OrderManager.create_order s now dr tp cid) = false /\
  ClaudeLogic.OrderManager.create_order s now dr tp cid = (None, s).
Proof.
  intros Hr Hc.
  unfold BackendLogic.OrderManager.create_order,
    ClaudeLogic.OrderManager.create_order,
    ClaudeLogic.DatabaseManager.execute_with_lastrowid, succeeded.
  simpl in *. rewrite Hr, Hc. simpl.
  rewrite next_rowid_not_stored.
  repeat split. destruct (_ || _); reflexivity.
Qed.

Lemma create_order_after_failed_commit_witness :
  @BackendLogic.OrderManager.create_order commit_fails one_pending_order
    order_time0 "Soup" (5 # 1) 1 = (Some 2, one_pending_order) /\
  has_order one_pending_order 2 = false.
Proof.
  destruct (@create_order_after_failed_commit commit_fails one_pending_order
              order_time0 "Soup" (5 # 1) 1 eq_refl eq_refl) as (H1 & H2 & _).
  split; [exact H1|exact H2].
Defined.

(** ** Adding a customer and finding it again *)

Lemma filter_none_not_in (phone : string) (l : list Customer) :
  filter (fun c => String.eqb (cus_phone c) phone) l = [] ->
  ~ In phone (map cus_phone l).
Proof.
  intros Hf Hin. apply in_map_iff in Hin as (c & Hph & Hin).
  assert (Hc : In c (filter (fun c => String.eqb (cus_phone c) phone) l)).
  { apply filter_In; split; auto. now apply String.eqb_eq. }
  rewrite Hf in Hc. destruct Hc.
Qed.

Lemma not_in_filter_none (phone : string) (l : list Customer) :
  ~ In phone (map cus_phone l) ->
  filter (fun c => String.eqb (cus_phone c) phone) l = [].
Proof.
  induction l as [|c l IH]; simpl; [reflexivity|].
  intro H. destruct (String.eqb_spec (cus_phone c) phone) as [Heq|Hne].
  - exfalso. apply H. now left.
  - apply IH. intro Hin. apply H. now right.
Qed.

(** X8: a customer that [add] of [claude_logic] accepted is found again by
    its phone.  Where the store answers the phone lookups, a call that
    returned [True] had a non-empty name and phone, [get_by_phone] on the
    resulting store returns the new row with the name and phone given, and
    a second [add] with that phone, under any name, is refused and changes
    nothing. *)
Theorem customer_add_then_get_by_phone {E : Engine} (s s' : Store)
  (name phone : string) :
  raises s (SelectCustomerByPhone phone) = false ->
  raises s' (SelectCustomerByPhone phone) = false ->
  ClaudeLogic.CustomerManager.add s name phone = (true, s') ->
  name <> "" /\ phone <> "" /\
  ClaudeLogic.CustomerManager.get_by_phone s' phone
  = (PyRow (CustomerRow
              (mkCustomer (next_rowid (map cus_id (Customers s))) name phone)),
     s') /\
  forall name2, ClaudeLogic.CustomerManager.add s' name2 phone = (false, s').
Proof.
  intros Hr Hr' Hadd.
  unfold ClaudeLogic.CustomerManager.add in Hadd.
  destruct (String.eqb_spec name "") as [Hn|Hn]; [discriminate|].
  destruct (String.eqb_spec phone "") as [Hp|Hp]; [discriminate|].
  simpl in Hadd.
  pose proof (get_by_phone_missing s phone Hr) as Hmiss.
  pose proof (get_by_phone_reads_only s phone) as Hsame.
  destruct (ClaudeLogic.CustomerManager.get_by_phone s phone) as [found s1].
  simpl in Hmiss, Hsame; subst s1.
  destruct (truthy found); [discriminate|].
  specialize (Hmiss eq_refl). apply not_in_filter_none in Hmiss as Hf.
  rewrite claude_write_result in Hadd.
  destruct (rejected s _); cbv beta iota in Hadd; [discriminate|].
  inversion Hadd as [Hs']; clear Hadd. subst s'.
  assert (Hget : ClaudeLogic.CustomerManager.get_by_phone
                   (run (InsertCustomer name phone) s) phone
                 = (PyRow (CustomerRow
                             (mkCustomer (next_rowid (map cus_id (Customers s)))
                                name phone)),
                    run (InsertCustomer name phone) s)).
  { unfold ClaudeLogic.CustomerManager.get_by_phone,
      ClaudeLogic.DatabaseManager.execute_query.
    unfold run. rewrite Hr'. simpl.
    rewrite filter_app, Hf. simpl. now rewrite String.eqb_refl. }
  unfold run in Hget.
  split; [exact Hn|]. split; [exact Hp|]. split; [exact Hget|].
  intro name2. unfold ClaudeLogic.CustomerManager.add.
  rewrite Hget. simpl.
  destruct (String.eqb name2 ""); simpl; [reflexivity|].
  apply String.eqb_neq in Hp. now rewrite Hp.
Qed.

Lemma customer_add_then_get_by_phone_witness :
  @ClaudeLogic.CustomerManager.get_by_phone permissive
    (snd (@ClaudeLogic.CustomerManager.add permissive one_customer "Binh"
            "0902")) "0902"
  = (PyRow (CustomerRow (mkCustomer 2 "Binh" "0902")),
     snd (@ClaudeLogic.CustomerManager.add permissive one_customer "Binh"
            "0902")).
Proof.
  apply (@customer_add_then_get_by_phone permissive one_customer
           (snd (@ClaudeLogic.CustomerManager.add permissive one_customer
                   "Binh" "0902")) "Binh" "0902");
    reflexivity.
Defined.

(** X9: [add] of [backend_logic]'s [CustomerManager] checks nothing: where
    the store executes the INSERT the customer is appended under a fresh id
    even with an empty name or phone, and when the phone is already stored
    two customers share it afterwards. *)
Theorem backend_customer_add_checks_nothing {E : Engine} (s : Store)
  (name phone : string) :
  rejected s (InsertCustomer name phone) = false ->
  BackendLogic.CustomerManager.add s name phone
  = (PyTrue,
     with_Customers s
       (Customers s ++
          [mkCustomer (next_rowid (map cus_id (Customers s))) name phone])) /\
  (In phone (map cus_phone (Customers s)) ->
   ~ phones_unique (snd (BackendLogic.CustomerManager.add s name phone))).
Proof.
  intro Hacc. unfold BackendLogic.CustomerManager.add.
  rewrite backend_write_result, Hacc. split; [reflexivity|].
  intros Hin Hu. unfold phones_unique in Hu. simpl in Hu.
  rewrite map_app in Hu. simpl in Hu.
  apply NoDup_remove_2 in Hu. rewrite app_nil_r in Hu. contradiction.
Qed.

Lemma backend_customer_add_checks_nothing_witness :
  @BackendLogic.CustomerManager.add permissive one_customer "" "0901"
  = (PyTrue,
     with_Customers one_customer
       [mkCustomer 1 "An" "0901"; mkCustomer 2 "" "0901"]) /\
  ~ phones_unique
      (snd (@BackendLogic.CustomerManager.add permissive one_customer ""
              "0901")).
Proof.
  destruct (@backend_customer_add_checks_nothing permissive one_customer ""
              "0901" eq_refl) as [H1 H2].
  split; [exact H1|]. apply H2. now left.
Defined.

(** ** Updating a stock and reading it back *)





(** X11: the writers of a stock do not look for the ingredient.  For an id
    that no stored ingredient has, [update_stock] and [update] of
    [claude_logic] and [update_stock] of [backend_logic], where the store
    executes the UPDATE, report success and leave the store as it was. *)
Theorem update_of_missing_ingredient {E : Engine} (s : Store) (id : Z)
  (ns : Q) (name un ex su : string) :
  has_ingredient s id = false ->
  (rejected s (UpdateIngredientStock ns id) = false ->
   BackendLogic.IngredientManager.update_stock s id ns = (PyTrue, s) /\
   ((0 <= ns)%Q ->
    ClaudeLogic.IngredientManager.update_stock s id ns = (true, s))) /\
  (rejected s (UpdateIngredient name ns un ex su id) = false ->
   ClaudeLogic.IngredientManager.update s id name ns un ex su = (true, s)).
Proof.
  intro Hmiss. split.
  - intro Hacc.
    assert (Hrun : run (UpdateIngredientStock ns id) s = s).
    { simpl. rewrite (map_update_absent ingre_id); [|exact Hmiss].
      apply with_Ingredients_same. }
    unfold BackendLogic.IngredientManager.update_stock,
      ClaudeLogic.IngredientManager.update_stock.
    rewrite backend_write_result, Hacc, Hrun. split; [reflexivity|].
    intro Hns. unfold Qlt_bool.
    apply Qle_bool_iff in Hns. rewrite Hns. simpl.
    now rewrite claude_write_result, Hacc, Hrun.
  - intro Hacc.
    assert (Hrun : run (UpdateIngredient name ns un ex su id) s = s).
    { simpl. rewrite (map_update_absent ingre_id); [|exact Hmiss].
      apply with_Ingredients_same. }
    unfold ClaudeLogic.IngredientManager.update.
    now rewrite claude_write_result, Hacc, Hrun.
Qed.

Lemma update_of_missing_ingredient_witness :
  @BackendLogic.IngredientManager.update_stock permissive shop 9 (3 # 1)
  = (PyTrue, shop) /\
  @ClaudeLogic.IngredientManager.update_stock permissive shop 9 (3 # 1)
  = (true, shop) /\
  @ClaudeLogic.IngredientManager.update permissive shop 9 "Salt" (3 # 1) "kg"
    "2026-01-01" "Sea" = (true, shop).
Proof.
  destruct (@update_of_missing_ingredient permissive shop 9 (3 # 1) "Salt"
              "kg" "2026-01-01" "Sea" eq_refl) as [H1 H2].
  destruct (H1 eq_refl) as [Hb Hc].
  split; [exact Hb|]. split; [apply Hc; discriminate|apply H2; reflexivity].
Defined.

(** * Properties of the other manager methods *)

Lemma NoDup_map_eq {A : Type} (key : A -> Z) (l : list A) (a b : A) :
  NoDup (map key l) -> In a l -> In b l -> key a = key b -> a = b.
Proof.
  induction l as [|x l IH]; simpl; [tauto|].
  intros Hnd Ha Hb Hk. inversion Hnd as [|k ks Hnin Hnd']; subst.
  destruct Ha as [->|Ha], Hb as [->|Hb]; auto.
  - exfalso. apply Hnin. rewrite Hk. now apply in_map.
  - exfalso. apply Hnin. rewrite <- Hk. now apply in_map.
Qed.

Lemma NoDup_map_eq_string {A : Type} (key : A -> string) (l : list A) (a b : A) :
  NoDup (map key l) -> In a l -> In b l -> key a = key b -> a = b.
Proof.
  induction l as [|x l IH]; simpl; [tauto|].
  intros Hnd Ha Hb Hk. inversion Hnd as [|k ks Hnin Hnd']; subst.
  destruct Ha as [->|Ha], Hb as [->|Hb]; auto.
  - exfalso. apply Hnin. rewrite Hk. now apply in_map.
  - exfalso. apply Hnin. rewrite <- Hk. now apply in_map.
Qed.

Lemma filter_by_unique_key {A : Type} (key : A -> Z) (l : list A) (a : A) :
  NoDup (map key l) -> In a l ->
  filter (fun x => key x =? key a) l = [a].
Proof.
  induction l as [|x l IH]; simpl; [tauto|].
  intros Hnd Ha. inversion Hnd as [|k ks Hnin Hnd']; subst.
  destruct Ha as [->|Ha].
  - rewrite Z.eqb_refl. f_equal.
    destruct (filter _ l) as [|y r] eqn:Hf; [reflexivity|].
    assert (Hy : In y (filter (fun x => key x =? key a) l))
      by (rewrite Hf; now left).
    apply filter_In in Hy as [Hy Hk]. apply Z.eqb_eq in Hk.
    exfalso. apply Hnin. rewrite <- Hk. now apply in_map.
  - destruct (Z.eqb_spec (key x) (key a)) as [Heq|Hne].
    + exfalso. apply Hnin. rewrite Heq. now apply in_map.
    + now apply IH.
Qed.

Lemma filter_by_absent_key {A : Type} (key : A -> Z) (l : list A) (id : Z) :
  existsb (fun x => key x =? id) l = false ->
  filter (fun x => key x =? id) l = [].
Proof.
  induction l as [|x l IH]; simpl; [reflexivity|].
  intro H. apply orb_false_elim in H as [Hx Hl]. now rewrite Hx, IH.
Qed.

Lemma filter_out_absent_key {A : Type} (key : A -> Z) (l : list A) (id : Z) :
  existsb (fun x => key x =? id) l = false ->
  filter (fun x => negb (key x =? id)) l = l.
Proof.
  induction l as [|x l IH]; simpl; [reflexivity|].
  intro H. apply orb_false_elim in H as [Hx Hl]. rewrite Hx, IH; auto.
Qed.

Lemma no_elements_nil {A : Type} (l : list A) : (forall a, ~ In a l) -> l = [].
Proof.
  destruct l as [|a l]; [reflexivity|]. intro H. exfalso. apply (H a). now left.
Qed.

Section Managers.
Context {QE : QueryEngine}.

Lemma manager_write_result (s : Store) (q : Query) :
  ClaudeManagers.DatabaseManager.execute_query s q false true =
    if refused s q then (NoneAnswer, s) else (TrueAnswer, perform q s).
Proof.
  unfold ClaudeManagers.DatabaseManager.execute_query, refused.
  destruct (query_raises s q); simpl; [reflexivity|].
  now destruct (query_commit_raises s q).
Qed.

Lemma manager_fetch_one (s : Store) (q : Query) :
  ClaudeManagers.DatabaseManager.execute_query s q true false =
    if query_raises s q then (NoneAnswer, s)
    else (match answers q s with [] => NoneAnswer | r :: _ => RowAnswer r end, s).
Proof.
  unfold ClaudeManagers.DatabaseManager.execute_query.
  now destruct (query_raises s q).
Qed.

Lemma customer_delete_true (s s' : Store) (id : Z) :
  ClaudeManagers.CustomerManager.delete s id = (true, s') ->
  s' = perform (DeleteCustomer id) s.
Proof.
  unfold ClaudeManagers.CustomerManager.delete.
  rewrite manager_write_result.
  destruct (refused s _); cbv beta iota; intro H; [discriminate|].
  now inversion H.
Qed.
End Managers.

(** X12: after [delete] of [CustomerManager] returned [True], no customer
    is stored under that id ([get_by_id] returns [None]), the customers
    stored are exactly those stored before under another id, and the
    orders, bills and deliveries are all still there, those of the deleted
    customer included.  When no customer had the id, the store is as it
    was, and the call returned [True] all the same. *)
Theorem customer_delete_then_get_by_id {QE : QueryEngine} (s s' : Store)
  (id : Z) :
  ClaudeManagers.CustomerManager.delete s id = (true, s') ->
  fst (ClaudeManagers.CustomerManager.get_by_id s' id) = NoneAnswer /\
  (forall c, In c (Customers s') <-> In c (Customers s) /\ cus_id c <> id) /\
  Orders s' = Orders s /\ Bills s' = Bills s /\ Deliveries s' = Deliveries s /\
  (has_customer s id = false -> s' = s).
Proof.
  intro Hdel. apply customer_delete_true in Hdel. subst s'.
  split; [|split].
  - unfold ClaudeManagers.CustomerManager.get_by_id.
    rewrite manager_fetch_one. destruct (query_raises _ _); [reflexivity|].
    simpl. rewrite (no_elements_nil (filter _ _)); [reflexivity|].
    intros c Hc. apply filter_In in Hc as [Hc Heq].
    apply filter_In in Hc as [_ Hne]. now rewrite Heq in Hne.
  - intro c. simpl. rewrite filter_In. split.
    + intros [Hin Hne]. split; [exact Hin|].
      intro Heq. apply Z.eqb_eq in Heq. now rewrite Heq in Hne.
    + intros [Hin Hne]. split; [exact Hin|].
      apply Z.eqb_neq in Hne. now rewrite Hne.
  - repeat split. intro Hmiss. simpl.
    rewrite (filter_out_absent_key cus_id); [|exact Hmiss].
    now destruct s.
Qed.

Lemma customer_delete_then_get_by_id_witness :
  fst (@ClaudeManagers.CustomerManager.get_by_id answering
         (snd (@ClaudeManagers.CustomerManager.delete answering
                 one_pending_order 1)) 1) = NoneAnswer /\
  Orders (snd (@ClaudeManagers.CustomerManager.delete answering
                 one_pending_order 1))
  = Orders one_pending_order.
Proof.
  destruct (@customer_delete_then_get_by_id answering one_pending_order
              (snd (@ClaudeManagers.CustomerManager.delete answering
                      one_pending_order 1)) 1 eq_refl)
    as (H1 & _ & H2 & _).
  split; [exact H1|exact H2].
Defined.

(** X13: [get_order_by_id] reads orders through their customer.  Once
    [delete] of [CustomerManager] has removed a customer, each of that
    customer's orders is still stored, and [get_order_by_id] returns [None]
    for it. *)
Theorem orders_of_deleted_customer_are_hidden {QE : QueryEngine}
  (s s' : Store) (o : Order) :
  In o (Orders s) ->
  NoDup (map order_id (Orders s)) ->
  ClaudeManagers.CustomerManager.delete s (order_cus_id o) = (true, s') ->
  In o (Orders s') /\
  fst (ClaudeManagers.OrderManager.get_order_by_id s' (order_id o)) = NoneAnswer.
Proof.
  intros Hin Hnd Hdel. apply customer_delete_true in Hdel. subst s'.
  split; [exact Hin|].
  unfold ClaudeManagers.OrderManager.get_order_by_id.
  rewrite manager_fetch_one. destruct (query_raises _ _); [reflexivity|].
  simpl. rewrite (no_elements_nil (flat_map _ _)); [reflexivity|].
  intros a Ha. apply in_flat_map in Ha as (o' & Ho' & Ha).
  apply filter_In in Ho' as [Ho' Hid]. apply Z.eqb_eq in Hid.
  assert (o' = o) by (eapply (NoDup_map_eq order_id); eauto). subst o'.
  apply in_map_iff in Ha as (c & _ & Hc).
  apply filter_In in Hc as [Hc Heq].
  apply filter_In in Hc as [_ Hne]. now rewrite Heq in Hne.
Qed.

Lemma orders_of_deleted_customer_are_hidden_witness :
  In (mkOrder 1 "Bread" (4 # 1) "2024-01-01 10:00:00" "Pending" 1)
    (Orders (snd (@ClaudeManagers.CustomerManager.delete answering
                    one_pending_order 1))) /\
  fst (@ClaudeManagers.OrderManager.get_order_by_id answering
         (snd (@ClaudeManagers.CustomerManager.delete answering
                 one_pending_order 1)) 1) = NoneAnswer.
Proof.
  apply (@orders_of_deleted_customer_are_hidden answering one_pending_order
           (snd (@ClaudeManagers.CustomerManager.delete answering
                   one_pending_order 1))
           (mkOrder 1 "Bread" (4 # 1) "2024-01-01 10:00:00" "Pending" 1)).
  - now left.
  - repeat constructor. intros [].
  - reflexivity.
Defined.

(** X14: what [get_order_by_id] returns.  A returned row pairs a stored
    order of the requested id with a stored customer carrying the order's
    [cus_id]; the result is [None] exactly when the store raises or no
    stored order of that id has a stored customer; and in a store with
    unique ids, where the store answers, an order whose customer is stored
    is returned with that customer. *)
Theorem get_order_by_id_pairs_order_and_customer {QE : QueryEngine}
  (s : Store) (id : Z) :
  (forall o c,
      fst (ClaudeManagers.OrderManager.get_order_by_id s id)
      = RowAnswer (AnOrder o c) ->
      In o (Orders s) /\ order_id o = id /\
      In c (Customers s) /\ cus_id c = order_cus_id o) /\
  (fst (ClaudeManagers.OrderManager.get_order_by_id s id) = NoneAnswer <->
   query_raises s (SelectOrderById id) = true \/
   forall o, In o (Orders s) -> order_id o = id ->
             has_customer s (order_cus_id o) = false) /\
  (forall o c,
      ids_unique s -> In o (Orders s) -> order_id o = id ->
      In c (Customers s) -> cus_id c = order_cus_id o ->
      query_raises s (SelectOrderById id) = false ->
      ClaudeManagers.OrderManager.get_order_by_id s id
      = (RowAnswer (AnOrder o c), s)).
Proof.
  unfold ClaudeManagers.OrderManager.get_order_by_id.
  rewrite manager_fetch_one.
  assert (Hmem : forall a, In a (answers (SelectOrderById id) s) ->
            exists o c, a = AnOrder o c /\ In o (Orders s) /\ order_id o = id /\
                        In c (Customers s) /\ cus_id c = order_cus_id o).
  { intros a Ha. simpl in Ha. apply in_flat_map in Ha as (o & Ho & Ha).
    apply filter_In in Ho as [Ho Hid]. apply Z.eqb_eq in Hid.
    apply in_map_iff in Ha as (c & <- & Hc).
    apply filter_In in Hc as [Hc Hcid]. apply Z.eqb_eq in Hcid.
    exists o, c. auto. }
  split; [|split].
  - intros o c. destruct (query_raises s _); cbn [fst]; [discriminate|].
    destruct (answers _ s) as [|a l] eqn:Ha; [discriminate|].
    intro H. inversion H; subst a.
    destruct (Hmem (AnOrder o c)) as (o' & c' & Heq & Hrest); [now left|].
    inversion Heq; subst. exact Hrest.
  - destruct (query_raises s _); cbn [fst]; [split; auto|].
    split.
    + intro Hnone. right. intros o Ho Hid.
      destruct (has_customer s (order_cus_id o)) eqn:Hc; [|reflexivity].
      apply existsb_exists in Hc as (c & Hc & Hcid).
      assert (Hin : In (AnOrder o c) (answers (SelectOrderById id) s)).
      { simpl. apply in_flat_map. exists o. split.
        - apply filter_In. split; [exact Ho|now apply Z.eqb_eq].
        - apply in_map. apply filter_In. now split. }
      destruct (answers _ s); [destruct Hin|discriminate].
    + intros [Hc|Hall]; [discriminate|].
      destruct (answers _ s) as [|a l] eqn:Ha; [reflexivity|].
      destruct (Hmem a) as (o & c & _ & Ho & Hid & Hc & Hcid); [now left|].
      specialize (Hall o Ho Hid).
      assert (Hex : has_customer s (order_cus_id o) = true).
      { apply existsb_exists. exists c. split; [exact Hc|now apply Z.eqb_eq]. }
      congruence.
  - intros o c (Hcu & _ & _ & _ & Hou & _) Ho Hid Hc Hcid Hr.
    rewrite Hr. simpl. subst id.
    rewrite (filter_by_unique_key order_id) by assumption. simpl.
    rewrite <- Hcid, (filter_by_unique_key cus_id) by assumption.
    reflexivity.
Qed.

Lemma get_order_by_id_pairs_order_and_customer_witness :
  @ClaudeManagers.OrderManager.get_order_by_id answering one_pending_order 1
  = (RowAnswer
       (AnOrder (mkOrder 1 "Bread" (4 # 1) "2024-01-01 10:00:00" "Pending" 1)
          (mkCustomer 1 "An" "0901")),
     one_pending_order).
Proof.
  apply (proj2 (proj2 (@get_order_by_id_pairs_order_and_customer answering
                         one_pending_order 1))).
  - repeat split; repeat constructor; simpl; intuition discriminate.
  - now left.
  - reflexivity.
  - now left.
  - reflexivity.
  - reflexivity.
Defined.

(** X15: [add] of [EmployeeManager] refuses an empty name and inserts
    nothing.  A call that returned [True] had a non-empty name and appended
    one employee under a fresh id, and [get_by_id] of that id returns the
    employee with the name given. *)
Theorem employee_add_then_get_by_id {QE : QueryEngine} (s : Store)
  (name : string) :
  (name = "" -> ClaudeManagers.EmployeeManager.add s name = (false, s)) /\
  (forall s',
      ClaudeManagers.EmployeeManager.add s name = (true, s') ->
      query_raises s' (SelectEmployeeById (next_rowid (map emp_id (Employees s))))
      = false ->
      name <> "" /\
      Employees s'
      = Employees s ++ [mkEmployee (next_rowid (map emp_id (Employees s))) name] /\
      ClaudeManagers.EmployeeManager.get_by_id s'
        (next_rowid (map emp_id (Employees s)))
      = (RowAnswer
           (AnEmployee (mkEmployee (next_rowid (map emp_id (Employees s))) name)),
         s')).
Proof.
  unfold ClaudeManagers.EmployeeManager.add.
  split; [intros ->; reflexivity|].
  intros s'. destruct (String.eqb_spec name "") as [Hn|Hn]; [discriminate|].
  rewrite manager_write_result.
  destruct (refused s _); cbv beta iota; intros H Hr; [discriminate|].
  inversion H; subst s'; clear H.
  split; [exact Hn|]. split; [reflexivity|].
  unfold ClaudeManagers.EmployeeManager.get_by_id.
  rewrite manager_fetch_one, Hr. simpl.
  rewrite filter_app. simpl. rewrite Z.eqb_refl.
  rewrite (no_elements_nil (filter _ (Employees s))); [reflexivity|].
  intros e He. apply filter_In in He as [He Heq]. apply Z.eqb_eq in Heq.
  pose proof (next_rowid_fresh (map emp_id (Employees s)) (emp_id e)
                (in_map emp_id _ _ He)). lia.
Qed.

Lemma employee_add_then_get_by_id_witness :
  @ClaudeManagers.EmployeeManager.add answering shop "" = (false, shop) /\
  @ClaudeManagers.EmployeeManager.get_by_id answering
    (snd (@ClaudeManagers.EmployeeManager.add answering shop "Lan")) 1
  = (RowAnswer (AnEmployee (mkEmployee 1 "Lan")),
     snd (@ClaudeManagers.EmployeeManager.add answering shop "Lan")).
Proof.
  split.
  - apply (proj1 (@employee_add_then_get_by_id answering shop "")).
    reflexivity.
  - apply (proj2 (@employee_add_then_get_by_id answering shop "Lan")
             (snd (@ClaudeManagers.EmployeeManager.add answering shop "Lan")));
      reflexivity.
Defined.

(** X16: [update] of [CustomerManager] checks nothing.  Where the store
    executes the UPDATE it returns [True]; every customer under the id then
    has the name and phone given and all others are as they were; giving a
    customer the phone of another breaks the uniqueness of phones that [add]
    guards; and for an id no customer has, the call returns [True] and
    changes nothing. *)
Theorem customer_update_checks_nothing {QE : QueryEngine} (s : Store)
  (id : Z) (name phone : string) :
  refused s (UpdateCustomer name phone id) = false ->
  fst (ClaudeManagers.CustomerManager.update s id name phone) = true /\
  (forall c,
      In c (Customers (snd (ClaudeManagers.CustomerManager.update s id name
                              phone))) <->
      (In c (Customers s) /\ cus_id c <> id) \/
      (c = mkCustomer id name phone /\ has_customer s id = true)) /\
  (forall c',
      In c' (Customers s) -> cus_id c' <> id -> cus_phone c' = phone ->
      has_customer s id = true ->
      ~ phones_unique (snd (ClaudeManagers.CustomerManager.update s id name
                              phone))) /\
  (has_customer s id = false ->
   ClaudeManagers.CustomerManager.update s id name phone = (true, s)).
Proof.
  intro Hacc. unfold ClaudeManagers.CustomerManager.update.
  rewrite manager_write_result, Hacc. cbn [fst snd answer_truthy].
  assert (Hmem : forall c,
             In c (Customers (perform (UpdateCustomer name phone id) s)) <->
             (In c (Customers s) /\ cus_id c <> id) \/
             (c = mkCustomer id name phone /\ has_customer s id = true)).
  { intro c. simpl. rewrite in_map_iff. split.
    - intros (c0 & Hc & Hin).
      destruct (Z.eqb_spec (cus_id c0) id) as [Heq|Hne].
      + right. subst c. rewrite Heq. split; [reflexivity|].
        apply existsb_exists. exists c0. split; [exact Hin|now apply Z.eqb_eq].
      + left. subst c. auto.
    - intros [[Hin Hne]|[-> Hex]].
      + exists c. split; [|exact Hin]. apply Z.eqb_neq in Hne. now rewrite Hne.
      + apply existsb_exists in Hex as (c0 & Hin & Heq).
        exists c0. rewrite Heq. apply Z.eqb_eq in Heq. rewrite Heq. auto. }
  split; [reflexivity|]. split; [exact Hmem|]. split.
  - intros c' Hin Hne Hph Hex Hu. unfold phones_unique in Hu.
    assert (Heq : c' = mkCustomer id name phone).
    { apply (NoDup_map_eq_string cus_phone _ _ _ Hu).
      - apply Hmem. left. auto.
      - apply Hmem. right. auto.
      - exact Hph. }
    apply Hne. rewrite Heq. reflexivity.
  - intro Hmiss. f_equal. simpl.
    rewrite (map_update_absent cus_id); [|exact Hmiss]. now destruct s.
Qed.

Lemma customer_update_checks_nothing_witness :
  fst (@ClaudeManagers.CustomerManager.update answering two_customers 2 "Binh"
         "0901") = true /\
  ~ phones_unique
      (snd (@ClaudeManagers.CustomerManager.update answering two_customers 2
              "Binh" "0901")) /\
  @ClaudeManagers.CustomerManager.update answering two_customers 7 "Chi" "0903"
  = (true, two_customers).
Proof.
  destruct (@customer_update_checks_nothing answering two_customers 2 "Binh"
              "0901" eq_refl) as (H1 & _ & H2 & _).
  destruct (@customer_update_checks_nothing answering two_customers 7 "Chi"
              "0903" eq_refl) as (_ & _ & _ & H3).
  split; [exact H1|]. split; [|apply H3; reflexivity].
  apply (H2 (mkCustomer 1 "An" "0901")).
  - now left.
  - discriminate.
  - reflexivity.
  - reflexivity.
Defined.

(** ** Recording a delivery and reading it back *)

Section Delivery.
Context {E : Engine} {QE : QueryEngine}.

Lemma claude_add_delivery_true s s' now oid sid addr di fe :
  ClaudeLogic.OrderManager.add_delivery s now oid sid addr di fe = (true, s') ->
  s' = run (InsertDelivery oid sid now addr di fe) s.
Proof.
  unfold ClaudeLogic.OrderManager.add_delivery.
  rewrite claude_write_result.
  destruct (rejected s _); cbv beta iota; intro H; [discriminate|].
  now inversion H.
Qed.
End Delivery.

(** X17: a delivery recorded by [add_delivery] is read back by
    [get_delivery_info] only through its shipper.  After [add_delivery]
    returned [True] for an order that had no delivery, where the store
    answers: if the shipper is stored (ids unique), [get_delivery_info]
    returns the address, distance and fee given, the time of the call and
    that shipper's info; if no shipper has the id, the delivery is stored
    all the same and [get_delivery_info] returns [None]. *)
Theorem add_delivery_then_get_delivery_info {E : Engine} {QE : QueryEngine}
  (s s' : Store) (now : string) (oid sid : Z) (addr : string) (di fe : Q) :
  ClaudeLogic.OrderManager.add_delivery s now oid sid addr di fe = (true, s') ->
  (forall d, In d (Deliveries s) -> delivery_order_id d <> oid) ->
  query_raises s' (SelectDeliveryInfo oid) = false ->
  Deliveries s'
  = Deliveries s ++
      [mkDelivery (next_rowid (map delivery_id (Deliveries s))) oid sid now addr
         di fe] /\
  (forall x,
      NoDup (map shipper_id (Shippers s)) -> In x (Shippers s) ->
      shipper_id x = sid ->
      ClaudeManagers.OrderManager.get_delivery_info s' oid
      = (RowAnswer
           (ADelivery (mkDeliveryInfo addr di fe now (shipper_info x))), s')) /\
  (has_shipper s sid = false ->
   ClaudeManagers.OrderManager.get_delivery_info s' oid = (NoneAnswer, s')).
Proof.
  intros Hadd Hnone Hr.
  apply claude_add_delivery_true in Hadd. subst s'.
  split; [reflexivity|].
  unfold ClaudeManagers.OrderManager.get_delivery_info.
  rewrite manager_fetch_one, Hr.
  assert (Hold : filter (fun d => delivery_order_id d =? oid) (Deliveries s) = []).
  { apply no_elements_nil. intros d Hd. apply filter_In in Hd as [Hd Heq].
    apply Z.eqb_eq in Heq. now apply (Hnone d). }
  split.
  - intros x Hnd Hx Hsid. simpl.
    rewrite filter_app, Hold. simpl. rewrite Z.eqb_refl. simpl.
    rewrite <- Hsid, (filter_by_unique_key shipper_id) by assumption.
    reflexivity.
  - intro Hmiss. simpl.
    rewrite filter_app, Hold. simpl. rewrite Z.eqb_refl. simpl.
    unfold has_shipper in Hmiss.
    rewrite (filter_by_absent_key shipper_id) by exact Hmiss.
    reflexivity.
Qed.

Lemma add_delivery_then_get_delivery_info_witness :
  @ClaudeManagers.OrderManager.get_delivery_info answering
    (snd (@ClaudeLogic.OrderManager.add_delivery permissive shop bill_time0 1 1
            "12 Hang Bac" (3 # 1) (2 # 1))) 1
  = (RowAnswer
       (ADelivery (mkDeliveryInfo "12 Hang Bac" (3 # 1) (2 # 1) bill_time0 "Bike")),
     snd (@ClaudeLogic.OrderManager.add_delivery permissive shop bill_time0 1 1
            "12 Hang Bac" (3 # 1) (2 # 1))) /\
  @ClaudeManagers.OrderManager.get_delivery_info answering
    (snd (@ClaudeLogic.OrderManager.add_delivery permissive shop bill_time0 1 8
            "12 Hang Bac" (3 # 1) (2 # 1))) 1
  = (NoneAnswer,
     snd (@ClaudeLogic.OrderManager.add_delivery permissive shop bill_time0 1 8
            "12 Hang Bac" (3 # 1) (2 # 1))).
Proof.
  split.
  - apply (proj1 (proj2 (@add_delivery_then_get_delivery_info permissive
                           answering shop _ bill_time0 1 1 "12 Hang Bac"
                           (3 # 1) (2 # 1) eq_refl
                           (fun d (H : In d []) => match H with end) eq_refl))
             (mkShipper 1 "Bike")).
    + repeat constructor. intros [].
    + now left.
    + reflexivity.
  - apply (proj2 (proj2 (@add_delivery_then_get_delivery_info permissive
                           answering shop _ bill_time0 1 8 "12 Hang Bac"
                           (3 # 1) (2 # 1) eq_refl
                           (fun d (H : In d []) => match H with end) eq_refl))).
    reflexivity.
Defined.

(** ** Lookups by id *)

(** X18: [get_by_id] of the customer, employee and shipper managers.  In a
    store with unique ids that answers the lookup, every stored row is
    returned for its id; for an id no row has, the result is [None]. *)
Theorem get_by_id_finds_stored_rows {QE : QueryEngine} (s : Store) :
  (forall c,
      ids_unique s -> In c (Customers s) ->
      query_raises s (SelectCustomerById (cus_id c)) = false ->
      ClaudeManagers.CustomerManager.get_by_id s (cus_id c)
      = (RowAnswer (ACustomer c), s)) /\
  (forall e,
      ids_unique s -> In e (Employees s) ->
      query_raises s (SelectEmployeeById (emp_id e)) = false ->
      ClaudeManagers.EmployeeManager.get_by_id s (emp_id e)
      = (RowAnswer (AnEmployee e), s)) /\
  (forall x,
      ids_unique s -> In x (Shippers s) ->
      query_raises s (SelectShipperById (shipper_id x)) = false ->
      ClaudeManagers.ShipperManager.get_by_id s (shipper_id x)
      = (RowAnswer (AShipper x), s)) /\
  (forall id,
      (has_customer s id = false ->
       ClaudeManagers.CustomerManager.get_by_id s id = (NoneAnswer, s)) /\
      (has_employee s id = false ->
       ClaudeManagers.EmployeeManager.get_by_id s id = (NoneAnswer, s)) /\
      (has_shipper s id = false ->
       ClaudeManagers.ShipperManager.get_by_id s id = (NoneAnswer, s))).
Proof.
  unfold ClaudeManagers.CustomerManager.get_by_id,
    ClaudeManagers.EmployeeManager.get_by_id,
    ClaudeManagers.ShipperManager.get_by_id.
  split; [|split; [|split]].
  - intros c (Hu & _) Hin Hr. rewrite manager_fetch_one, Hr. simpl.
    now rewrite (filter_by_unique_key cus_id).
  - intros e (_ & Hu & _) Hin Hr. rewrite manager_fetch_one, Hr. simpl.
    now rewrite (filter_by_unique_key emp_id).
  - intros x (_ & _ & Hu & _) Hin Hr. rewrite manager_fetch_one, Hr. simpl.
    now rewrite (filter_by_unique_key shipper_id).
  - intro id. rewrite !manager_fetch_one.
    split; [|split]; intro Hmiss;
      destruct (query_raises s _); try reflexivity; simpl.
    + now rewrite (filter_by_absent_key cus_id).
    + now rewrite (filter_by_absent_key emp_id).
    + now rewrite (filter_by_absent_key shipper_id).
Qed.

Lemma get_by_id_finds_stored_rows_witness :
  @ClaudeManagers.CustomerManager.get_by_id answering shop 1
  = (RowAnswer (ACustomer (mkCustomer 1 "An" "0901")), shop) /\
  @ClaudeManagers.ShipperManager.get_by_id answering shop 1
  = (RowAnswer (AShipper (mkShipper 1 "Bike")), shop) /\
  @ClaudeManagers.EmployeeManager.get_by_id answering shop 1
  = (NoneAnswer, shop).
Proof.
  destruct (@get_by_id_finds_stored_rows answering shop)
    as (Hc & _ & Hx & Hmiss).
  split; [|split].
  - apply (Hc (mkCustomer 1 "An" "0901") shop_ids_unique);
      [now left|reflexivity].
  - apply (Hx (mkShipper 1 "Bike") shop_ids_unique); [now left|reflexivity].
  - apply (Hmiss 1). reflexivity.
Defined.

(** ** Invariants under the other writes *)

(** Removing rows keeps the keys of the remaining rows distinct. *)
Lemma distinct_keys_after_removal {K Row : Type} (key : Row -> K)
  (keep : Row -> bool) (table : list Row) (Hdistinct : NoDup (map key table)) :
  NoDup (map key (filter keep table)).
Proof.
  induction table as [|row table IH]; simpl in *; [constructor|].
  apply NoDup_cons_iff in Hdistinct as [Hfresh Hrest].
  destruct (keep row); simpl; [|now apply IH].
  apply NoDup_cons_iff. split; [|now apply IH].
  intro Hin. apply Hfresh.
  apply in_map_iff in Hin as (other & Hkey & Hother).
  apply filter_In in Hother as [Hother _].
  rewrite <- Hkey. now apply in_map.
Qed.

Lemma perform_keeps_ids_unique (q : Query) (s : Store) :
  ids_unique s -> ids_unique (perform q s).
Proof.
  intros (Hc & He & Hsh & Hi & Ho & Hb & Hd).
  destruct q; unfold ids_unique; simpl;
    rewrite ?map_app; simpl;
    rewrite ?(map_id_update cus_id);
    auto 10 using NoDup_snoc_fresh, distinct_keys_after_removal.
Qed.

(** X19: the writes of the customer, employee and ingredient managers keep
    the tables well formed.  Whatever the statement and whether the store
    executes it or raises, a store with unique ids keeps unique ids; and
    deleting a customer keeps the phones pairwise distinct, deleting an
    ingredient keeps every stock non-negative. *)
Theorem manager_writes_keep_tables_well_formed {QE : QueryEngine} (s : Store) :
  (forall q,
      ids_unique s ->
      ids_unique (snd (ClaudeManagers.DatabaseManager.execute_query s q false
                         true))) /\
  (forall id,
      phones_unique s ->
      phones_unique (snd (ClaudeManagers.CustomerManager.delete s id))) /\
  (forall id,
      stock_nonneg s ->
      stock_nonneg (snd (ClaudeManagers.IngredientManager.delete s id))).
Proof.
  split; [|split].
  - intros q H. rewrite manager_write_result.
    destruct (refused s q); simpl; [exact H|].
    now apply perform_keeps_ids_unique.
  - intros id H. unfold ClaudeManagers.CustomerManager.delete.
    rewrite manager_write_result.
    destruct (refused s _); simpl; [exact H|].
    now apply distinct_keys_after_removal.
  - intros id H. unfold ClaudeManagers.IngredientManager.delete.
    rewrite manager_write_result.
    destruct (refused s _); simpl; [exact H|].
    unfold stock_nonneg in *. simpl.
    apply Forall_forall. intros i Hi. apply filter_In in Hi as [Hi _].
    rewrite Forall_forall in H. now apply H.
Qed.

Lemma manager_writes_keep_tables_well_formed_witness :
  ids_unique
    (snd (@ClaudeManagers.DatabaseManager.execute_query answering shop
            (InsertEmployee "Lan") false true)) /\
  phones_unique (snd (@ClaudeManagers.CustomerManager.delete answering shop 1)) /\
  stock_nonneg (snd (@ClaudeManagers.IngredientManager.delete answering shop 1)).
Proof.
  destruct (@manager_writes_keep_tables_well_formed answering shop)
    as (H1 & H2 & H3).
  split; [apply H1, shop_ids_unique|]. split.
  - apply H2. repeat constructor. intros [].
  - apply H3. repeat constructor. simpl. discriminate.
Defined.
